(** * Business-intelligence MCP server: analytics and dispatch core

    A shallow embedding of the TypeScript classes [AnalyticsEngine],
    [SalesService], [InventoryService], [SecurityManager], [ReportGenerator]
    and of the tool handler of [index.ts], with the properties the
    specification states about them.

    Conventions of the embedding:
    - a JavaScript [number] is an IEEE-754 binary64 value, modelled by the
      kernel's primitive [float] (so [0 / 0] really is [nan]);
    - a thrown [Error] is a constructor of [Error] (one per [throw] site),
      [message] gives the text the source builds;
    - the relational store is reached through [db.get], [db.all] and
      [db.run]; a handler is a tree of such calls ([DB]), the answers are the
      store's;
    - the [insights] display strings of the analytic results (template
      literals over [toFixed]) carry no property and are left out of the
      result records. *)

From Stdlib Require Import Bool List String Ascii ZArith Lia DecimalString.
From Stdlib Require Import Floats.PrimFloat Uint63.
From Stdlib Require QArith.
Import ListNotations.

Set Warnings "-inexact-float".
Set Implicit Arguments.

Local Open Scope list_scope.
Local Open Scope string_scope.

(* ===================================================================== *)
(** ** JavaScript values and built-ins *)
(* ===================================================================== *)

Module JS.

(** JSON scalars as they reach the handlers through [z.any()]. *)
Inductive jsval : Type :=
| JNull
| JBool (b : bool)
| JNum (n : float)
| JStr (s : string).

(** [typeof v === 'string'] *)
Definition is_string (v : jsval) : bool :=
  match v with JStr _ => true | _ => false end.

(** Truthiness of a string: only the empty string is falsy. *)
Definition truthy_string (s : string) : bool :=
  negb (String.eqb s "").

(** Truthiness of a number: [0], [-0] and [NaN] are falsy. *)
Definition truthy_number (n : float) : bool :=
  negb (PrimFloat.eqb n 0 || is_nan n).

(** Truthiness of an optional property holding a string. *)
Definition truthy_opt_string (o : option string) : bool :=
  match o with Some s => truthy_string s | None => false end.

Definition truthy_opt_number (o : option float) : bool :=
  match o with Some n => truthy_number n | None => false end.

(** ToNumber of a nullable SQL aggregate: JavaScript's [null] counts as
    [+0] in arithmetic. *)
Definition num_of_nullable (o : option float) : float :=
  match o with Some n => n | None => 0%float end.

(** [x || 0] on a nullable number. *)
Definition or_zero (o : option float) : float :=
  match o with
  | Some n => if truthy_number n then n else 0%float
  | None => 0%float
  end.

(** [arr.length] as a number. *)
Definition length_number {A} (l : list A) : float :=
  PrimFloat.of_uint63 (Uint63.of_Z (Z.of_nat (List.length l))).

Definition number_of_nat (n : nat) : float :=
  PrimFloat.of_uint63 (Uint63.of_Z (Z.of_nat n)).

(** [Math.max(a, b)]: [NaN] if either argument is [NaN]; [+0] is larger
    than [-0]. *)
Definition Math_max (a b : float) : float :=
  if is_nan a || is_nan b then nan
  else if PrimFloat.ltb a b then b
  else if PrimFloat.ltb b a then a
  else if get_sign a then b else a.

(** [arr.slice(from, to)] for [0 <= from <= to]. *)
Definition slice {A} (from to : nat) (l : list A) : list A :=
  firstn (to - from) (skipn from l).

(** [arr.join(sep)] on an array of strings. *)
Definition join (sep : string) (l : list string) : string :=
  String.concat sep l.

(** [[...new Set(arr)]]: the distinct elements in first-insertion order. *)
Fixpoint set_spread_from (seen : list string) (l : list string) : list string :=
  match l with
  | [] => []
  | x :: rest =>
      if existsb (String.eqb x) seen then set_spread_from seen rest
      else x :: set_spread_from (x :: seen) rest
  end.

Definition set_spread (l : list string) : list string :=
  set_spread_from [] l.

End JS.
Import JS.

(* ===================================================================== *)
(** ** Thrown errors *)
(* ===================================================================== *)

(** One constructor per [throw new Error(...)] site of the modelled
    sources; [message] is the text built there. *)
Inductive Error : Type :=
| InvalidRequestFormat
| MissingRequiredParameters
| InvalidToolName
| InvalidStartDateFormat
| InvalidEndDateFormat
| StartAfterEnd
| InvalidFilterKey (key : string)
| InvalidFilterValueType (key : string)
| MissingRequiredFields
| CustomerNotFound (customerId : string)
| ProductNotFound (productId : string)
| UnknownOperation (operation : string).

Definition message (e : Error) : string :=
  match e with
  | InvalidRequestFormat => "Invalid request format"
  | MissingRequiredParameters => "Missing required parameters"
  | InvalidToolName => "Invalid tool name"
  | InvalidStartDateFormat => "Invalid start date format"
  | InvalidEndDateFormat => "Invalid end date format"
  | StartAfterEnd => "Start date cannot be after end date"
  | InvalidFilterKey key => "Invalid filter key: " ++ key
  | InvalidFilterValueType key => "Invalid filter value type for " ++ key
  | MissingRequiredFields =>
      "Missing required fields: customerId, productId, quantity, estimatedValue"
  | CustomerNotFound id => "Customer with ID " ++ id ++ " not found"
  | ProductNotFound id => "Product with ID " ++ id ++ " not found"
  | UnknownOperation op => "Unknown operation: " ++ op
  end.

(** The specification's error taxonomy (section 7), read off the throw
    site. *)
Inductive ErrorKind : Type :=
| ValidationError
| NotFoundError
| DomainError.

Definition kind (e : Error) : ErrorKind :=
  match e with
  | CustomerNotFound _ | ProductNotFound _ => NotFoundError
  | StartAfterEnd => DomainError
  | _ => ValidationError
  end.

(* ===================================================================== *)
(** ** Request data: filters and date range *)
(* ===================================================================== *)

(** [filters]: a JSON object whose properties hold arrays
    ([z.record(z.any())] in the tool schema, [Filters] in the engine);
    properties in insertion order, as [Object.keys] lists them. *)
Definition Filters : Type := list (string * list jsval).

(** [filters[key]], [None] for [undefined]. *)
Fixpoint prop (key : string) (filters : Filters) : option (list jsval) :=
  match filters with
  | [] => None
  | (k, v) :: rest => if String.eqb k key then Some v else prop key rest
  end.

(** [dateRange]: [{ start?: string, end?: string }]. *)
Record DateRange : Type := mkDateRange {
  start : option string;
  end_ : option string
}.

(* ===================================================================== *)
(** ** The relational store as the handlers see it *)
(* ===================================================================== *)

Module Db.

(** A column value of a result row. *)
Inductive SqlValue : Type :=
| SqlNull
| SqlInteger (z : Z)
| SqlReal (r : float)
| SqlText (t : string).

(** A result row whose columns the handler only passes on. *)
Definition Row : Type := list (string * SqlValue).

(** Rows whose columns the handlers compute with.  [COUNT] columns are
    numbers; [SUM], [AVG], [MAX], [MIN] and plain columns may be [NULL]. *)
Record CountRow := { count : float }.
Record ClvRow := {
  avg_clv : option float; max_clv : option float; min_clv : option float }.
Record SalesMetricsRow := {
  sm_total_orders : float; sm_total_revenue : option float;
  sm_avg_order_value : option float; sm_unique_customers : float }.
Record InventoryRow := {
  name : option string; category : option string; sku : option string;
  quantity : option Z; reorder_level : option Z; warehouse : option string }.
Record MonthlyRow := {
  month : option string; revenue : option float; orders : float }.
Record RetentionRow := { total_customers : float; repeat_customers : float }.
Record RevenueRow := { total_revenue : option float }.
Record MonthRevenueRow := {
  mr_month : option string; mr_revenue : option float }.
Record OrderMetricsRow := {
  total_orders : float; delivered_orders : float; cancelled_orders : float;
  avg_order_age_days : option float }.
Record FinancialMetricsRow := {
  fm_total_revenue : option float; fm_total_orders : float;
  fm_avg_order_value : option float; fm_unique_customers : float }.
Record ProfitRow := {
  pr_name : option string; pr_category : option string;
  units_sold : option float; pr_revenue : option float;
  total_cost : option float; profit : option float;
  profit_margin : option float }.
Record InventorySummaryRow := {
  total_products : float; low_stock_count : option float;
  total_inventory_value : option float; avg_quantity : option float }.

(** The [SELECT] statements the modelled handlers pass to [db.get] and
    [db.all], indexed by the shape of the answer.  [w] is the text
    [buildWhereClause] returned, spliced into the statement. *)
Inductive Query : Type -> Type :=
(* AnalyticsEngine.getCustomerAnalytics *)
| CA_totalCustomers (w : string) : Query CountRow
| CA_customerTierDistribution (w : string) : Query (list Row)
| CA_industryBreakdown (w : string) : Query (list Row)
| CA_customerLifetimeValue (w : string) : Query ClvRow
(* AnalyticsEngine.getSalesPerformance *)
| SP_salesMetrics (w : string) : Query SalesMetricsRow
| SP_monthlySales (w : string) : Query (list Row)
| SP_salesRepPerformance (w : string) : Query (list Row)
(* AnalyticsEngine.getInventoryInsights *)
| II_inventoryStatus : Query (list InventoryRow)
| II_categoryBreakdown : Query (list Row)
| II_warehouseDistribution : Query (list Row)
(* AnalyticsEngine.predictSalesTrends *)
| PT_historicalData (w : string) : Query (list MonthlyRow)
(* AnalyticsEngine.analyzeCustomerBehavior *)
| CB_customerSegments (w : string) : Query (list Row)
| CB_purchasePatterns (w : string) : Query (list Row)
| CB_customerRetention (w : string) : Query RetentionRow
(* AnalyticsEngine.getRevenueForecast *)
| RF_currentRevenue (w : string) : Query RevenueRow
| RF_monthlyGrowth (w : string) : Query (list MonthRevenueRow)
(* AnalyticsEngine.getOperationalMetrics *)
| OM_orderMetrics (w : string) : Query OrderMetricsRow
| OM_paymentMethods (w : string) : Query (list Row)
(* AnalyticsEngine.getFinancialSummary *)
| FS_financialMetrics (w : string) : Query FinancialMetricsRow
| FS_productProfitability (w : string) : Query (list ProfitRow)
(* SalesService.createSalesOpportunity *)
| CustomerById (customerId : string) : Query (option Row)
| ProductById (productId : string) : Query (option Row)
(* SalesService.getSalesForecast *)
| SF_historicalData : Query (list MonthlyRow)
(* InventoryService.checkInventoryLevels *)
| CI_inventory (whereClause orderBy : string) (params : list string)
    : Query (list InventoryRow)
| CI_summary (whereClause : string) (params : list string)
    : Query InventorySummaryRow.

(** The statements passed to [db.run]. *)
Inductive Update : Type :=
| UpdateInventory (quantity reorderLevel : option Z)
                  (productId warehouse : option string).

(** What a handler does: a tree of store calls that ends in a value or in
    a thrown error. *)
Inductive DB (A : Type) : Type :=
| Ret (a : A)
| Throw (e : Error)
| Select (R : Type) (q : Query R) (k : R -> DB A)
| Run (u : Update) (k : unit -> DB A).

Arguments Ret {A} a.
Arguments Throw {A} e.
Arguments Select {A R} q k.
Arguments Run {A} u k.

Fixpoint bind {A B} (m : DB A) (f : A -> DB B) : DB B :=
  match m with
  | Ret a => f a
  | Throw e => Throw e
  | Select q k => Select q (fun r => bind (k r) f)
  | Run u k => Run u (fun r => bind (k r) f)
  end.

(** [await this.get(...)] / [await this.all(...)] *)
Definition select {R} (q : Query R) : DB R := Select q Ret.
(** [await this.run(...)] *)
Definition run (u : Update) : DB unit := Run u Ret.

End Db.
Import Db.

Declare Scope db_scope.
Delimit Scope db_scope with db.
Notation "x <- m ;; k" := (Db.bind m (fun x => k))
  (at level 61, m at next level, right associativity) : db_scope.

(** The command text of each statement (runs of white space of the source's
    template literals written as one blank) and its bound parameters. *)
Definition inventory_columns_case : string :=
  "CASE WHEN i.quantity <= i.reorder_level THEN 'Low Stock' " ++
  "WHEN i.quantity <= i.reorder_level * 2 THEN 'Medium Stock' " ++
  "ELSE 'High Stock' END as stock_status".

Definition from_orders_customers (w : string) : string :=
  " FROM orders o JOIN customers c ON o.customer_id = c.id " ++ w.

Definition from_customers_orders (w : string) : string :=
  " FROM customers c JOIN orders o ON c.id = o.customer_id " ++ w.

Definition sql_text {R} (q : Query R) : string :=
  match q with
  | CA_totalCustomers w =>
      "SELECT COUNT(*) as count" ++ from_customers_orders w
  | CA_customerTierDistribution w =>
      "SELECT customer_tier, COUNT(*) as count, AVG(total_spent) as avg_spent"
      ++ from_customers_orders w ++ " GROUP BY customer_tier"
  | CA_industryBreakdown w =>
      "SELECT industry, COUNT(*) as count, SUM(total_spent) as total_revenue"
      ++ from_customers_orders w ++ " GROUP BY industry ORDER BY total_revenue DESC"
  | CA_customerLifetimeValue w =>
      "SELECT AVG(total_spent) as avg_clv, MAX(total_spent) as max_clv, MIN(total_spent) as min_clv"
      ++ from_customers_orders w
  | SP_salesMetrics w =>
      "SELECT COUNT(*) as total_orders, SUM(total_amount) as total_revenue, " ++
      "AVG(total_amount) as avg_order_value, COUNT(DISTINCT customer_id) as unique_customers"
      ++ from_orders_customers w
  | SP_monthlySales w =>
      "SELECT strftime('%Y-%m', order_date) as month, COUNT(*) as orders, SUM(total_amount) as revenue"
      ++ from_orders_customers w
      ++ " GROUP BY strftime('%Y-%m', order_date) ORDER BY month DESC LIMIT 12"
  | SP_salesRepPerformance w =>
      "SELECT sr.name, sr.region, COUNT(o.id) as orders, SUM(o.total_amount) as revenue, " ++
      "AVG(o.total_amount) as avg_deal_size FROM sales_reps sr " ++
      "LEFT JOIN orders o ON sr.id = o.sales_rep_id JOIN customers c ON o.customer_id = c.id "
      ++ w ++ " GROUP BY sr.id, sr.name, sr.region ORDER BY revenue DESC"
  | II_inventoryStatus =>
      "SELECT p.name, p.category, p.sku, i.quantity, i.reorder_level, i.warehouse, "
      ++ inventory_columns_case ++
      " FROM inventory i JOIN products p ON i.product_id = p.id " ++
      "WHERE p.status = 'active' ORDER BY i.quantity ASC"
  | II_categoryBreakdown =>
      "SELECT p.category, COUNT(*) as product_count, SUM(i.quantity) as total_quantity, " ++
      "AVG(i.quantity) as avg_quantity FROM inventory i JOIN products p ON i.product_id = p.id " ++
      "WHERE p.status = 'active' GROUP BY p.category"
  | II_warehouseDistribution =>
      "SELECT warehouse, COUNT(*) as products, SUM(quantity) as total_quantity " ++
      "FROM inventory i JOIN products p ON i.product_id = p.id " ++
      "WHERE p.status = 'active' GROUP BY warehouse"
  | PT_historicalData w =>
      "SELECT strftime('%Y-%m', order_date) as month, SUM(total_amount) as revenue, COUNT(*) as orders"
      ++ from_orders_customers w
      ++ " GROUP BY strftime('%Y-%m', order_date) ORDER BY month DESC LIMIT 12"
  | CB_customerSegments w =>
      "SELECT customer_tier, COUNT(*) as count, AVG(total_spent) as avg_spent, " ++
      "AVG(julianday('now') - julianday(acquisition_date)) as avg_days_since_acquisition"
      ++ from_customers_orders w ++ " GROUP BY customer_tier"
  | CB_purchasePatterns w =>
      "SELECT strftime('%w', order_date) as day_of_week, strftime('%H', order_date) as hour_of_day, " ++
      "COUNT(*) as order_count, AVG(total_amount) as avg_amount"
      ++ from_orders_customers w
      ++ " GROUP BY strftime('%w', order_date), strftime('%H', order_date) ORDER BY order_count DESC"
  | CB_customerRetention w =>
      "SELECT COUNT(DISTINCT customer_id) as total_customers, " ++
      "COUNT(DISTINCT CASE WHEN order_count > 1 THEN customer_id END) as repeat_customers " ++
      "FROM ( SELECT customer_id, COUNT(*) as order_count"
      ++ from_orders_customers w ++ " GROUP BY customer_id )"
  | RF_currentRevenue w =>
      "SELECT SUM(total_amount) as total_revenue" ++ from_orders_customers w
  | RF_monthlyGrowth w =>
      "SELECT strftime('%Y-%m', order_date) as month, SUM(total_amount) as revenue"
      ++ from_orders_customers w
      ++ " GROUP BY strftime('%Y-%m', order_date) ORDER BY month DESC LIMIT 6"
  | OM_orderMetrics w =>
      "SELECT COUNT(*) as total_orders, " ++
      "COUNT(CASE WHEN status = 'delivered' THEN 1 END) as delivered_orders, " ++
      "COUNT(CASE WHEN status = 'cancelled' THEN 1 END) as cancelled_orders, " ++
      "AVG(julianday('now') - julianday(order_date)) as avg_order_age_days"
      ++ from_orders_customers w
  | OM_paymentMethods w =>
      "SELECT payment_method, COUNT(*) as count, SUM(total_amount) as total_amount"
      ++ from_orders_customers w ++ " GROUP BY payment_method ORDER BY total_amount DESC"
  | FS_financialMetrics w =>
      "SELECT SUM(o.total_amount) as total_revenue, COUNT(o.id) as total_orders, " ++
      "AVG(o.total_amount) as avg_order_value, COUNT(DISTINCT o.customer_id) as unique_customers"
      ++ from_orders_customers w
  | FS_productProfitability w =>
      "SELECT p.name, p.category, SUM(oi.quantity) as units_sold, SUM(oi.total_price) as revenue, " ++
      "SUM(oi.quantity * p.cost) as total_cost, " ++
      "SUM(oi.total_price) - SUM(oi.quantity * p.cost) as profit, " ++
      "(SUM(oi.total_price) - SUM(oi.quantity * p.cost)) / SUM(oi.total_price) * 100 as profit_margin " ++
      "FROM order_items oi JOIN products p ON oi.product_id = p.id " ++
      "JOIN orders o ON oi.order_id = o.id JOIN customers c ON o.customer_id = c.id "
      ++ w ++ " GROUP BY p.id, p.name, p.category ORDER BY profit DESC LIMIT 10"
  | CustomerById _ => "SELECT * FROM customers WHERE id = ?"
  | ProductById _ => "SELECT * FROM products WHERE id = ?"
  | SF_historicalData =>
      "SELECT strftime('%Y-%m', order_date) as month, SUM(total_amount) as revenue, " ++
      "COUNT(*) as orders FROM orders WHERE order_date >= date('now', '-12 months') " ++
      "GROUP BY strftime('%Y-%m', order_date) ORDER BY month DESC"
  | CI_inventory whereClause orderBy _ =>
      "SELECT p.id, p.name, p.sku, p.category, p.price, p.cost, i.warehouse, i.quantity, " ++
      "i.reorder_level, i.last_updated, " ++ inventory_columns_case ++
      ", (i.quantity * p.cost) as inventory_value " ++
      "FROM inventory i JOIN products p ON i.product_id = p.id "
      ++ whereClause ++ " ORDER BY " ++ orderBy
  | CI_summary whereClause _ =>
      "SELECT COUNT(*) as total_products, " ++
      "SUM(CASE WHEN i.quantity <= i.reorder_level THEN 1 ELSE 0 END) as low_stock_count, " ++
      "SUM(i.quantity * p.cost) as total_inventory_value, AVG(i.quantity) as avg_quantity " ++
      "FROM inventory i JOIN products p ON i.product_id = p.id " ++ whereClause
  end.

Definition sql_params {R} (q : Query R) : list string :=
  match q with
  | CustomerById customerId => [customerId]
  | ProductById productId => [productId]
  | CI_inventory _ _ params => params
  | CI_summary _ params => params
  | _ => []
  end.

(** A statement as the store client receives it. *)
Inductive Issued : Type :=
| IssuedSelect (text : string) (params : list string)
| IssuedRun (u : Update).

(** A store: its state, its answer to every [SELECT] and the effect of every
    [db.run] statement.  A [SELECT] leaves the state as it is. *)
Record Store : Type := mkStore {
  state : Type;
  answer : state -> forall R, Query R -> R;
  apply : state -> Update -> state
}.

Record Outcome (S A : Type) : Type := mkOutcome {
  result : Error + A;
  final : S;
  issued : list Issued
}.

(** Running a handler against a store, from state [s]; the statements
    issued are recorded in order. *)
Fixpoint exec (st : Store) {A} (p : DB A) (s : state st) : Outcome (state st) A :=
  match p with
  | Ret a => mkOutcome (inr a) s []
  | Throw e => mkOutcome (inl e) s []
  | Select q k =>
      let o := exec st (k (answer st s q)) s in
      mkOutcome (result o) (final o) (IssuedSelect (sql_text q) (sql_params q) :: issued o)
  | Run u k =>
      let o := exec st (k tt) (apply st s u) in
      mkOutcome (result o) (final o) (IssuedRun u :: issued o)
  end.

(** The handler issues no [db.run] statement, whatever the store answers. *)
Inductive read_only {A} : DB A -> Prop :=
| ro_ret a : read_only (Ret a)
| ro_throw e : read_only (Throw e)
| ro_select R (q : Query R) k :
    (forall r, read_only (k r)) -> read_only (Select q k).

(** What the host environment provides: the JavaScript built-ins whose
    results the sources use ... *)
Class Builtins : Type := {
  (** [String(n)], the text of a number in a template literal *)
  Number_toString : float -> string;
  (** [Math.pow] *)
  Math_pow : float -> float -> float;
  (** [Math.round] *)
  Math_round : float -> float;
  (** [new Date(s).getTime()], [None] for [NaN] (an invalid date) *)
  Date_getTime : string -> option Z
}.

(** ... and the clock, as one handler invocation reads it. *)
Class Clock : Type := {
  (** [Date.now()] *)
  Date_now : Z;
  (** [new Date().toISOString()] *)
  Date_toISOString : string;
  (** the label [toISOString().slice(0, 7)] of the month [i] months ahead
      of the current one *)
  month_ahead : nat -> string
}.

(** The standard result envelope of the analytic operations ([insights]
    left out, see the head of the file). *)
Record AnalyticsResult (D T : Type) : Type := mkAnalyticsResult {
  data : D;
  recommendations : list string;
  metrics : list (string * float);
  trends : T
}.

(** [metrics[name]] *)
Fixpoint metric (name : string) (ms : list (string * float)) : option float :=
  match ms with
  | [] => None
  | (k, v) :: rest => if String.eqb k name then Some v else metric name rest
  end.

(** The text a template literal gives for a filter value. *)
Definition template `{Builtins} (v : jsval) : string :=
  match v with
  | JNull => "null"
  | JBool true => "true"
  | JBool false => "false"
  | JNum n => Number_toString n
  | JStr s => s
  end.

(** [`'${value}'`] *)
Definition quoted `{Builtins} (v : jsval) : string := "'" ++ template v ++ "'".

(** [`column IN (${values.map(v => `'${v}'`).join(', ')})`] *)
Definition in_condition `{Builtins} (column : string) (values : list jsval) : string :=
  column ++ " IN (" ++ join ", " (map quoted values) ++ ")".

(** [if (filters.key && filters.key.length > 0) conditions.push(...)]: what
    the statement appends to [conditions]. *)
Definition filter_condition `{Builtins} (filters : Filters) (key column : string)
  : list string :=
  match prop key filters with
  | Some values =>
      if (0 <? List.length values)%nat then [in_condition column values] else []
  | None => []
  end.

(** [if (dateRange?.start) conditions.push(`o.order_date >= '${...}'`)] and
    the same for [end]. *)
Definition date_condition (op : string) (bound : option string) : list string :=
  match bound with
  | Some d => if truthy_string d then ["o.order_date " ++ op ++ " '" ++ d ++ "'"] else []
  | None => []
  end.

Definition date_conditions (dateRange : option DateRange) : list string :=
  match dateRange with
  | Some dr => (date_condition ">=" (start dr) ++ date_condition "<=" (end_ dr))%list
  | None => []
  end.

(** [conditions.length > 0 ? `WHERE ${conditions.join(' AND ')}` : ''] *)
Definition where_of (conditions : list string) : string :=
  if (0 <? List.length conditions)%nat then "WHERE " ++ join " AND " conditions else "".

(** The three-way stock bucket of the [CASE] expression in the inventory
    statements.  SQL comparison with [NULL] is not true, so a [WHEN] on a
    [NULL] column falls through.  (Beyond 64 bits SQLite multiplies in
    floating point; the comparison against a 64-bit quantity comes out the
    same as on [Z].) *)
Definition sql_le (a b : option Z) : bool :=
  match a, b with
  | Some x, Some y => (x <=? y)%Z
  | _, _ => false
  end.

Definition sql_times2 (a : option Z) : option Z :=
  match a with Some x => Some (x * 2)%Z | None => None end.

(** A day count [julianday('now') - julianday(date)]: a real number, taken
    with its exact value, or [NULL].  [a > n] and [a <= n] against an
    integer literal; a comparison with [NULL] is not true. *)
Definition sql_real_gt (a : option QArith_base.Q) (n : Z) : bool :=
  match a with
  | Some x => negb (QArith_base.Qle_bool x (QArith_base.inject_Z n))
  | None => false
  end.

Definition sql_real_le (a : option QArith_base.Q) (n : Z) : bool :=
  match a with
  | Some x => QArith_base.Qle_bool x (QArith_base.inject_Z n)
  | None => false
  end.

(** [a > b] on integer columns. *)
Definition sql_gt (a b : option Z) : bool :=
  match a, b with
  | Some x, Some y => (y <? x)%Z
  | _, _ => false
  end.

(** How often the character [c] stands in [s]. *)
Fixpoint count_char (c : ascii) (s : string) : nat :=
  match s with
  | EmptyString => 0
  | String c' rest =>
      if Ascii.eqb c' c then S (count_char c rest) else count_char c rest
  end.

(** A statement with its bound parameters, as passed to [db.all] or
    [db.run]. *)
Record Statement : Type := mkStatement {
  st_text : string;
  st_params : list jsval
}.

(* ===================================================================== *)
(** ** Class [AnalyticsEngine] (analytics/analytics.ts) *)
(* ===================================================================== *)

Module AnalyticsEngine.
Section WithHost.
Context {builtins : Builtins} {clock : Clock}.
Local Open Scope db_scope.

(** [buildWhereClause(filters, dateRange)] *)
Definition buildWhereClause (filters : Filters) (dateRange : option DateRange)
  : string :=
  where_of
    (filter_condition filters "customerTier" "c.customer_tier"
     ++ filter_condition filters "industry" "c.industry"
     ++ filter_condition filters "region" "o.region"
     ++ filter_condition filters "productCategory" "p.category"
     ++ filter_condition filters "status" "o.status"
     ++ date_conditions dateRange)%list.

(** *** getCustomerAnalytics *)

Record CustomerAnalyticsData := {
  ca_totalCustomers : float;
  customerTierDistribution : list Row;
  industryBreakdown : list Row;
  customerLifetimeValue : ClvRow
}.

Definition getCustomerAnalytics (filters : Filters) (dateRange : option DateRange)
  : DB (AnalyticsResult CustomerAnalyticsData (list Row * list Row)) :=
  let whereClause := buildWhereClause filters dateRange in
  totalCustomers <- select (CA_totalCustomers whereClause) ;;
  customerTierDistribution <- select (CA_customerTierDistribution whereClause) ;;
  industryBreakdown <- select (CA_industryBreakdown whereClause) ;;
  customerLifetimeValue <- select (CA_customerLifetimeValue whereClause) ;;
  Ret {| data := {| ca_totalCustomers := count totalCustomers;
                    customerTierDistribution := customerTierDistribution;
                    industryBreakdown := industryBreakdown;
                    customerLifetimeValue := customerLifetimeValue |};
         recommendations :=
           [ "Focus on platinum tier customers for retention programs";
             "Develop industry-specific marketing campaigns";
             "Implement customer segmentation strategies" ];
         metrics :=
           [ ("totalCustomers", count totalCustomers);
             ("avgCLV", or_zero (avg_clv customerLifetimeValue));
             ("maxCLV", or_zero (max_clv customerLifetimeValue)) ];
         trends := (customerTierDistribution, industryBreakdown) |}.

(** *** getSalesPerformance *)

Record SalesPerformanceData := {
  salesMetrics : SalesMetricsRow;
  monthlySales : list Row;
  salesRepPerformance : list Row
}.

Definition getSalesPerformance (filters : Filters) (dateRange : option DateRange)
  : DB (AnalyticsResult SalesPerformanceData (list Row * list Row)) :=
  let whereClause := buildWhereClause filters dateRange in
  salesMetrics <- select (SP_salesMetrics whereClause) ;;
  monthlySales <- select (SP_monthlySales whereClause) ;;
  salesRepPerformance <- select (SP_salesRepPerformance whereClause) ;;
  Ret {| data := {| salesMetrics := salesMetrics;
                    monthlySales := monthlySales;
                    salesRepPerformance := salesRepPerformance |};
         recommendations :=
           [ "Implement sales training for underperforming regions";
             "Focus on increasing average order value";
             "Develop targeted campaigns for high-value customers" ];
         metrics :=
           [ ("totalRevenue", or_zero (sm_total_revenue salesMetrics));
             ("avgOrderValue", or_zero (sm_avg_order_value salesMetrics));
             ("totalOrders", or_zero (Some (sm_total_orders salesMetrics))) ];
         trends := (monthlySales, salesRepPerformance) |}.

(** *** getInventoryInsights *)

(** The [stock_status] column of the statement: its [CASE] expression. *)
Definition stock_status (quantity reorder_level : option Z) : string :=
  if sql_le quantity reorder_level then "Low Stock"
  else if sql_le quantity (sql_times2 reorder_level) then "Medium Stock"
  else "High Stock".

Record InventoryStatusRow := {
  is_row : InventoryRow;
  is_stock_status : string
}.

Definition with_stock_status (r : InventoryRow) : InventoryStatusRow :=
  {| is_row := r; is_stock_status := stock_status (quantity r) (reorder_level r) |}.

Record InventoryInsightsData := {
  inventoryStatus : list InventoryStatusRow;
  lowStockItems : list InventoryStatusRow;
  categoryBreakdown : list Row;
  warehouseDistribution : list Row
}.

(** A nullable integer column in arithmetic. *)
Definition number_of_Z (z : Z) : float :=
  if (z <? 0)%Z then (- PrimFloat.of_uint63 (Uint63.of_Z (- z)))%float
  else PrimFloat.of_uint63 (Uint63.of_Z z).

Definition number_of_integer (o : option Z) : float :=
  match o with Some z => number_of_Z z | None => 0%float end.

Definition getInventoryInsights (filters : Filters)
  : DB (AnalyticsResult InventoryInsightsData
          (list InventoryStatusRow * list Row)) :=
  rows <- select II_inventoryStatus ;;
  let inventoryStatus := map with_stock_status rows in
  let lowStockItems :=
    filter (fun item => String.eqb (is_stock_status item) "Low Stock")
           inventoryStatus in
  categoryBreakdown <- select II_categoryBreakdown ;;
  warehouseDistribution <- select II_warehouseDistribution ;;
  Ret {| data := {| inventoryStatus := inventoryStatus;
                    lowStockItems := lowStockItems;
                    categoryBreakdown := categoryBreakdown;
                    warehouseDistribution := warehouseDistribution |};
         recommendations :=
           [ "Reorder low stock items immediately";
             "Optimize warehouse distribution";
             "Implement automated reorder alerts" ];
         metrics :=
           [ ("totalProducts", length_number inventoryStatus);
             ("lowStockCount", length_number lowStockItems);
             ("totalValue",
              fold_left
                (fun sum item =>
                   (sum + number_of_integer (quantity (is_row item)) * 100)%float)
                inventoryStatus 0%float) ];
         trends := (inventoryStatus, categoryBreakdown) |}.

(** *** predictSalesTrends *)

(** [months.reduce((sum, month) => sum + month.revenue, 0)] *)
Definition sum_revenue (months : list MonthlyRow) : float :=
  fold_left (fun sum month => (sum + num_of_nullable (revenue month))%float)
            months 0%float.

Record TrendPoint := {
  tp_month : string;
  predicted_revenue : float;
  tp_confidence : float
}.

Record SalesTrendsData := {
  st_historicalData : list MonthlyRow;
  st_forecast : list TrendPoint;
  st_growthRate : float
}.

Definition recentAvg_of (historicalData : list MonthlyRow) : float :=
  let recentMonths := slice 0 6 historicalData in
  (sum_revenue recentMonths / length_number recentMonths)%float.

Definition olderAvg_of (historicalData : list MonthlyRow) : float :=
  let olderMonths := slice 6 12 historicalData in
  (sum_revenue olderMonths / length_number olderMonths)%float.

(** [((recentAvg - olderAvg) / olderAvg) * 100] *)
Definition growthRate_of (historicalData : list MonthlyRow) : float :=
  let recentAvg := recentAvg_of historicalData in
  let olderAvg := olderAvg_of historicalData in
  (((recentAvg - olderAvg) / olderAvg) * 100)%float.

(** The body of [for (let i = 1; i <= 3; i++)]. *)
Definition trend_point (recentAvg growthRate : float) (i : nat) : TrendPoint :=
  let forecastRevenue :=
    (recentAvg * (1 + (growthRate / 100) * number_of_nat i))%float in
  {| tp_month := month_ahead i;
     predicted_revenue := Math_max 0 forecastRevenue;
     tp_confidence := Math_max 0.5 (1 - (number_of_nat i * 0.1)) |}.

Definition trend_forecast (historicalData : list MonthlyRow) : list TrendPoint :=
  map (trend_point (recentAvg_of historicalData) (growthRate_of historicalData))
      (seq 1 3).

Definition predictSalesTrends (filters : Filters) (dateRange : option DateRange)
  : DB (AnalyticsResult SalesTrendsData (list MonthlyRow * list TrendPoint)) :=
  historicalData <- select (PT_historicalData (buildWhereClause filters dateRange)) ;;
  let recentAvg := recentAvg_of historicalData in
  let growthRate := growthRate_of historicalData in
  let forecast := trend_forecast historicalData in
  let forecastedRevenue :=
    fold_left (fun sum f => (sum + predicted_revenue f)%float) forecast 0%float in
  Ret {| data := {| st_historicalData := historicalData;
                    st_forecast := forecast;
                    st_growthRate := growthRate |};
         recommendations :=
           [ if (0 <? growthRate)%float then "Maintain current growth strategies"
             else "Implement growth initiatives";
             "Monitor forecast accuracy monthly";
             "Adjust inventory based on predicted demand" ];
         metrics :=
           [ ("growthRate", growthRate);
             ("avgMonthlyRevenue", recentAvg);
             ("forecastedRevenue", forecastedRevenue) ];
         trends := (historicalData, forecast) |}.

(** *** analyzeCustomerBehavior *)

Record CustomerBehaviorData := {
  customerSegments : list Row;
  purchasePatterns : list Row;
  customerRetention : RetentionRow;
  cb_retentionRate : float
}.

(** [(repeat_customers / total_customers) * 100] *)
Definition retentionRate_of (customerRetention : RetentionRow) : float :=
  ((repeat_customers customerRetention / total_customers customerRetention) * 100)%float.

Definition analyzeCustomerBehavior (filters : Filters) (dateRange : option DateRange)
  : DB (AnalyticsResult CustomerBehaviorData (list Row * list Row)) :=
  customerSegments <- select (CB_customerSegments (buildWhereClause filters dateRange)) ;;
  purchasePatterns <- select (CB_purchasePatterns (buildWhereClause filters dateRange)) ;;
  customerRetention <- select (CB_customerRetention (buildWhereClause filters dateRange)) ;;
  let retentionRate := retentionRate_of customerRetention in
  Ret {| data := {| customerSegments := customerSegments;
                    purchasePatterns := purchasePatterns;
                    customerRetention := customerRetention;
                    cb_retentionRate := retentionRate |};
         recommendations :=
           [ "Implement loyalty programs for repeat customers";
             "Optimize marketing campaigns for peak hours";
             "Develop segment-specific engagement strategies" ];
         metrics :=
           [ ("retentionRate", retentionRate);
             ("totalCustomers", total_customers customerRetention);
             ("repeatCustomers", repeat_customers customerRetention) ];
         trends := (customerSegments, purchasePatterns) |}.

(** *** getRevenueForecast *)

Record ForecastPoint := {
  fp_month : string;
  forecasted_revenue : float;
  fp_confidence : float
}.

Record RevenueForecastData := {
  currentRevenue : RevenueRow;
  monthlyGrowth : list MonthRevenueRow;
  rf_forecast : list ForecastPoint;
  rf_growthRate : float
}.

(** [monthlyGrowth.length > 1 ? ((m[0].revenue - m[1].revenue) / m[1].revenue) * 100 : 0] *)
Definition monthly_growthRate (monthlyGrowth : list MonthRevenueRow) : float :=
  match monthlyGrowth with
  | m0 :: m1 :: _ =>
      (((num_of_nullable (mr_revenue m0) - num_of_nullable (mr_revenue m1))
        / num_of_nullable (mr_revenue m1)) * 100)%float
  | _ => 0%float
  end.

(** The body of [for (let i = 1; i <= 12; i++)]. *)
Definition forecast_point (total_revenue : option float) (growthRate : float)
           (i : nat) : ForecastPoint :=
  let forecastRevenue :=
    (num_of_nullable total_revenue
     * Math_pow (1 + (growthRate / 100)) (number_of_nat i))%float in
  {| fp_month := month_ahead i;
     forecasted_revenue := Math_max 0 forecastRevenue;
     fp_confidence := Math_max 0.3 (1 - (number_of_nat i * 0.05)) |}.

Definition getRevenueForecast (filters : Filters) (dateRange : option DateRange)
  : DB (AnalyticsResult RevenueForecastData
          (list MonthRevenueRow * list ForecastPoint)) :=
  currentRevenue <- select (RF_currentRevenue (buildWhereClause filters dateRange)) ;;
  monthlyGrowth <- select (RF_monthlyGrowth (buildWhereClause filters dateRange)) ;;
  let growthRate := monthly_growthRate monthlyGrowth in
  let forecast :=
    map (forecast_point (total_revenue currentRevenue) growthRate) (seq 1 12) in
  Ret {| data := {| currentRevenue := currentRevenue;
                    monthlyGrowth := monthlyGrowth;
                    rf_forecast := forecast;
                    rf_growthRate := growthRate |};
         recommendations :=
           [ if (5 <? growthRate)%float then "Maintain growth momentum"
             else "Focus on revenue growth strategies";
             "Monitor forecast accuracy quarterly";
             "Adjust business strategies based on forecast trends" ];
         metrics :=
           [ ("currentRevenue", or_zero (total_revenue currentRevenue));
             ("growthRate", growthRate);
             ("forecastedAnnualRevenue",
              fold_left (fun sum f => (sum + forecasted_revenue f)%float)
                        forecast 0%float) ];
         trends := (monthlyGrowth, forecast) |}.

(** *** getOperationalMetrics *)

Record OperationalMetricsData := {
  orderMetrics : OrderMetricsRow;
  om_fulfillmentRate : float;
  om_cancellationRate : float;
  paymentMethods : list Row
}.

(** [(delivered_orders / total_orders) * 100] *)
Definition fulfillmentRate_of (orderMetrics : OrderMetricsRow) : float :=
  ((delivered_orders orderMetrics / total_orders orderMetrics) * 100)%float.

(** [(cancelled_orders / total_orders) * 100] *)
Definition cancellationRate_of (orderMetrics : OrderMetricsRow) : float :=
  ((cancelled_orders orderMetrics / total_orders orderMetrics) * 100)%float.

Definition getOperationalMetrics (filters : Filters) (dateRange : option DateRange)
  : DB (AnalyticsResult OperationalMetricsData (OrderMetricsRow * list Row)) :=
  orderMetrics <- select (OM_orderMetrics (buildWhereClause filters dateRange)) ;;
  let fulfillmentRate := fulfillmentRate_of orderMetrics in
  let cancellationRate := cancellationRate_of orderMetrics in
  paymentMethods <- select (OM_paymentMethods (buildWhereClause filters dateRange)) ;;
  Ret {| data := {| orderMetrics := orderMetrics;
                    om_fulfillmentRate := fulfillmentRate;
                    om_cancellationRate := cancellationRate;
                    paymentMethods := paymentMethods |};
         recommendations :=
           [ if (10 <? cancellationRate)%float
             then "Investigate and reduce cancellation causes"
             else "Maintain low cancellation rate";
             if (fulfillmentRate <? 90)%float
             then "Improve fulfillment processes"
             else "Excellent fulfillment performance";
             "Optimize payment method offerings based on customer preferences" ];
         metrics :=
           [ ("fulfillmentRate", fulfillmentRate);
             ("cancellationRate", cancellationRate);
             ("avgOrderAge", or_zero (avg_order_age_days orderMetrics)) ];
         trends := (orderMetrics, paymentMethods) |}.

(** *** getFinancialSummary *)

Record FinancialSummaryData := {
  financialMetrics : FinancialMetricsRow;
  productProfitability : list ProfitRow;
  fs_totalProfit : float;
  fs_overallMargin : float
}.

(** [productProfitability.reduce((sum, product) => sum + product.profit, 0)] *)
Definition totalProfit_of (productProfitability : list ProfitRow) : float :=
  fold_left (fun sum product => (sum + num_of_nullable (profit product))%float)
            productProfitability 0%float.

(** [(totalProfit / financialMetrics.total_revenue) * 100] *)
Definition overallMargin_of (totalProfit : float)
           (financialMetrics : FinancialMetricsRow) : float :=
  ((totalProfit / num_of_nullable (fm_total_revenue financialMetrics)) * 100)%float.

Definition getFinancialSummary (filters : Filters) (dateRange : option DateRange)
  : DB (AnalyticsResult FinancialSummaryData
          (list ProfitRow * FinancialMetricsRow)) :=
  financialMetrics <- select (FS_financialMetrics (buildWhereClause filters dateRange)) ;;
  productProfitability <-
    select (FS_productProfitability (buildWhereClause filters dateRange)) ;;
  let totalProfit := totalProfit_of productProfitability in
  let overallMargin := overallMargin_of totalProfit financialMetrics in
  Ret {| data := {| financialMetrics := financialMetrics;
                    productProfitability := productProfitability;
                    fs_totalProfit := totalProfit;
                    fs_overallMargin := overallMargin |};
         recommendations :=
           [ if (overallMargin <? 20)%float
             then "Focus on improving profit margins"
             else "Maintain healthy profit margins";
             "Increase sales of high-margin products";
             "Review pricing strategy for low-margin items" ];
         metrics :=
           [ ("totalRevenue", or_zero (fm_total_revenue financialMetrics));
             ("totalProfit", totalProfit);
             ("profitMargin", overallMargin) ];
         trends := (productProfitability, financialMetrics) |}.

End WithHost.
End AnalyticsEngine.


(* ===================================================================== *)
(** ** Class [SalesService] (services/salesService.ts) *)
(* ===================================================================== *)

(** The [parameters] bag of a request: the properties the modelled handlers
    read, with the types the API documentation gives them; [None] is
    [undefined]. *)
Record Parameters : Type := mkParameters {
  customerId : option string;
  productId : option string;
  p_quantity : option float;
  estimatedValue : option float;
  salesRepId : option string;
  notes : option string;
  p_priority : option string;
  p_category : option string;
  p_warehouse : option string;
  lowStockOnly : option bool;
  sortBy : option string
}.

(** Decimal text of an integer, as a template literal prints it. *)
Definition string_of_Z (z : Z) : string := NilZero.string_of_int (Z.to_int z).

Module SalesService.
Section WithHost.
Context {builtins : Builtins} {clock : Clock}.
Local Open Scope db_scope.

Record Opportunity := {
  id : string;
  o_customerId : string;
  o_productId : string;
  o_quantity : float;
  o_estimatedValue : float;
  o_salesRepId : option string;
  o_notes : option string;
  o_priority : string;
  status : string;
  createdAt : string;
  customer : Row;
  product : Row
}.

Record OpportunityResponse := {
  opportunity : Opportunity;
  or_message : string;
  nextSteps : list string
}.

(** [!customerId || !productId || !quantity || !estimatedValue] *)
Definition missing_required (d : Parameters) : bool :=
  negb (truthy_opt_string (customerId d))
  || negb (truthy_opt_string (productId d))
  || negb (truthy_opt_number (p_quantity d))
  || negb (truthy_opt_number (estimatedValue d)).

(** [createSalesOpportunity(opportunityData)] *)
Definition createSalesOpportunity (opportunityData : Parameters)
  : DB OpportunityResponse :=
  match customerId opportunityData, productId opportunityData,
        p_quantity opportunityData, estimatedValue opportunityData with
  | Some customerId, Some productId, Some quantity, Some estimatedValue =>
      if missing_required opportunityData then Throw MissingRequiredFields
      else
        customer <- select (CustomerById customerId) ;;
        match customer with
        | None => Throw (CustomerNotFound customerId)
        | Some customer =>
            product <- select (ProductById productId) ;;
            match product with
            | None => Throw (ProductNotFound productId)
            | Some product =>
                Ret {| opportunity :=
                         {| id := "OPP" ++ string_of_Z Date_now;
                            o_customerId := customerId;
                            o_productId := productId;
                            o_quantity := quantity;
                            o_estimatedValue := estimatedValue;
                            o_salesRepId := salesRepId opportunityData;
                            o_notes := notes opportunityData;
                            o_priority :=
                              match p_priority opportunityData with
                              | Some p => p
                              | None => "medium"
                              end;
                            status := "open";
                            createdAt := Date_toISOString;
                            customer := customer;
                            product := product |};
                       or_message := "Sales opportunity created successfully";
                       nextSteps :=
                         [ "Schedule follow-up call with customer";
                           "Prepare product demonstration";
                           "Create proposal document" ] |}
            end
        end
  | _, _, _, _ => Throw MissingRequiredFields
  end.

(** [buildWhereClause(filters, dateRange)]: the service's own copy, without
    the [productCategory] filter. *)
Definition buildWhereClause (filters : Filters) (dateRange : option DateRange)
  : string :=
  where_of
    (filter_condition filters "customerTier" "c.customer_tier"
     ++ filter_condition filters "industry" "c.industry"
     ++ filter_condition filters "region" "o.region"
     ++ filter_condition filters "status" "o.status"
     ++ date_conditions dateRange)%list.

(** *** getSalesForecast *)

Record SalesForecastPoint := {
  sf_month : string;
  sf_forecasted_revenue : float;
  forecasted_orders : float;
  sf_confidence : float
}.

Record SalesForecast := {
  sf_historicalData : list MonthlyRow;
  sf_forecast : list SalesForecastPoint;
  sf_growthRate : float
}.

(** [olderAvg > 0 ? ((recentAvg - olderAvg) / olderAvg) * 100 : 0] *)
Definition growthRate_of (historicalData : list MonthlyRow) : float :=
  let recentAvg := AnalyticsEngine.recentAvg_of historicalData in
  let olderAvg := AnalyticsEngine.olderAvg_of historicalData in
  if (0 <? olderAvg)%float then (((recentAvg - olderAvg) / olderAvg) * 100)%float
  else 0%float.

Definition sales_forecast_point (historicalData : list MonthlyRow) (i : nat)
  : SalesForecastPoint :=
  let recentMonths := slice 0 6 historicalData in
  let recentAvg := AnalyticsEngine.recentAvg_of historicalData in
  let growthRate := growthRate_of historicalData in
  let forecastRevenue :=
    (recentAvg * Math_pow (1 + (growthRate / 100)) (number_of_nat i))%float in
  let forecastOrders :=
    Math_round
      (fold_left (fun sum month => (sum + orders month)%float) recentMonths 0%float
       / length_number recentMonths
       * (1 + (growthRate / 100) * number_of_nat i))%float in
  {| sf_month := month_ahead i;
     sf_forecasted_revenue := Math_max 0 forecastRevenue;
     forecasted_orders := Math_max 0 forecastOrders;
     sf_confidence := Math_max 0.3 (1 - (number_of_nat i * 0.1)) |}.

Definition getSalesForecast : DB SalesForecast :=
  historicalData <- select SF_historicalData ;;
  Ret {| sf_historicalData := historicalData;
         sf_forecast := map (sales_forecast_point historicalData) (seq 1 6);
         sf_growthRate := growthRate_of historicalData |}.


(** *** getSalesPipeline *)

(** The [lead_status] column: its [CASE] expression over the days since the
    customer's last order ([NULL] for a customer without orders). *)
Definition lead_status (days_since_last_order : option QArith_base.Q) : string :=
  if sql_real_le days_since_last_order 30 then "Hot Lead"
  else if sql_real_le days_since_last_order 60 then "Warm Lead"
  else if sql_real_le days_since_last_order 90 then "Cold Lead"
  else "Inactive".

(** [HAVING lead_status IN ('Hot Lead', 'Warm Lead')] *)
Definition in_pipeline (days_since_last_order : option QArith_base.Q) : bool :=
  existsb (String.eqb (lead_status days_since_last_order))
          ["Hot Lead"; "Warm Lead"].

End WithHost.
End SalesService.

(* ===================================================================== *)
(** ** Class [InventoryService] (imported from services/inventoryService.js) *)
(* ===================================================================== *)

(** The double-quote character around [active] in the first condition of
    [checkInventoryLevels]. *)
Definition dquote : string := String (Ascii.ascii_of_nat 34) EmptyString.

Module InventoryService.
Section WithHost.
Context {builtins : Builtins} {clock : Clock}.
Local Open Scope db_scope.

(** The [stock_status] column of the statement of [checkInventoryLevels]:
    its [CASE] expression. *)
Definition stock_status (quantity reorder_level : option Z) : string :=
  if sql_le quantity reorder_level then "Low Stock"
  else if sql_le quantity (sql_times2 reorder_level) then "Medium Stock"
  else "High Stock".

Record InventoryLevelRow := {
  il_row : InventoryRow;
  il_stock_status : string
}.

Definition with_stock_status (r : InventoryRow) : InventoryLevelRow :=
  {| il_row := r; il_stock_status := stock_status (quantity r) (reorder_level r) |}.

Record InventoryLevels := {
  inventory : list InventoryLevelRow;
  summary : InventorySummaryRow;
  il_filters : Parameters
}.

(** [if (category) { whereConditions.push('p.category = ?'); params.push(category); }] *)
Definition bound_condition (condition : string) (value : option string)
  : list string * list string :=
  match value with
  | Some v => if truthy_string v then ([condition], [v]) else ([], [])
  | None => ([], [])
  end.

(** [checkInventoryLevels(filters)]: the values reach the store as bound
    parameters, the command text holds [?] in their place. *)
Definition checkInventoryLevels (filters : Parameters) : DB InventoryLevels :=
  let category := bound_condition "p.category = ?" (p_category filters) in
  let warehouse := bound_condition "i.warehouse = ?" (p_warehouse filters) in
  let lowStock :=
    match lowStockOnly filters with
    | Some true => ["i.quantity <= i.reorder_level"]
    | _ => []
    end in
  let whereConditions :=
    ([("p.status = " ++ dquote ++ "active" ++ dquote)%string]
     ++ fst category ++ fst warehouse ++ lowStock)%list in
  let params := (snd category ++ snd warehouse)%list in
  let whereClause := "WHERE " ++ join " AND " whereConditions in
  let orderBy :=
    match sortBy filters with
    | None => "i.quantity ASC"
    | Some s =>
        if String.eqb s "quantity" then "i.quantity ASC"
        else if String.eqb s "name" then "p.name ASC"
        else "i.quantity ASC"
    end in
  rows <- select (CI_inventory whereClause orderBy params) ;;
  summary <- select (CI_summary whereClause params) ;;
  Ret {| inventory := map with_stock_status rows;
         summary := summary;
         il_filters := filters |}.

(** *** updateInventoryLevels *)

Record InventoryUpdate := {
  u_productId : option string;
  u_warehouse : option string;
  u_quantity : option Z;
  u_reorderLevel : option Z
}.

(** [for (const update of updates) { await this.run(...); results.push(...) }] *)
Fixpoint update_each (updates results : list InventoryUpdate)
  : DB (list InventoryUpdate) :=
  match updates with
  | [] => Ret results
  | update :: rest =>
      _ <- run (UpdateInventory (u_quantity update) (u_reorderLevel update)
                                (u_productId update) (u_warehouse update)) ;;
      update_each rest (results ++ [update])%list
  end.

Definition updateInventoryLevels (updates : list InventoryUpdate)
  : DB (nat * list InventoryUpdate) :=
  results <- update_each updates [] ;;
  Ret (List.length results, results).


(** [buildWhereClause(filters, dateRange)]: the service's own copy, without
    the [status] filter. *)
Definition buildWhereClause (filters : Filters) (dateRange : option DateRange)
  : string :=
  where_of
    (filter_condition filters "customerTier" "c.customer_tier"
     ++ filter_condition filters "industry" "c.industry"
     ++ filter_condition filters "region" "o.region"
     ++ filter_condition filters "productCategory" "p.category"
     ++ date_conditions dateRange)%list.

(** *** getWarehouseAnalysis: the rows its counters count *)

(** [COUNT(CASE WHEN i.quantity > i.reorder_level * 2 THEN 1 END) as well_stocked] *)
Definition well_stocked (quantity reorder_level : option Z) : bool :=
  sql_gt quantity (sql_times2 reorder_level).

(** [COUNT(CASE WHEN i.quantity <= i.reorder_level THEN 1 END) as under_stocked],
    also the condition [lowStockOnly] adds and the one [low_stock_count]
    sums over. *)
Definition under_stocked (quantity reorder_level : option Z) : bool :=
  sql_le quantity reorder_level.

(** [COUNT(CASE WHEN i.quantity = 0 THEN 1 END) as out_of_stock] *)
Definition out_of_stock (quantity : option Z) : bool :=
  match quantity with
  | Some q => (q =? 0)%Z
  | None => false
  end.

(** The [db.run] statement of one update. *)
Definition update_of (update : InventoryUpdate) : Update :=
  UpdateInventory (u_quantity update) (u_reorderLevel update)
                  (u_productId update) (u_warehouse update).

End WithHost.
End InventoryService.

(* ===================================================================== *)
(** ** Class [SecurityManager] (imported from security/security.js) *)
(* ===================================================================== *)

(** The validated tool arguments ([BusinessIntelligenceToolSchema]). *)
Inductive Operation : Type :=
| get_customer_analytics | get_sales_performance | get_inventory_insights
| generate_business_report | predict_sales_trends | analyze_customer_behavior
| get_revenue_forecast | identify_top_products | analyze_market_segments
| get_operational_metrics | search_customers | get_customer_details
| update_customer_info | check_inventory_levels | get_product_performance
| create_sales_opportunity | get_order_analytics | analyze_geographic_sales
| get_financial_summary | export_data.

Inductive Format : Type := json | csv | pdf.

Record Args : Type := mkArgs {
  operation : Operation;
  parameters : option Parameters;
  filters : option Filters;
  dateRange : option DateRange;
  format : option Format
}.

(** A [tools/call] request as the protocol layer hands it over:
    [request.params.name] and [request.params.arguments]. *)
Record Request : Type := mkRequest {
  tool_name : string;
  arguments : option Args
}.

Module SecurityManager.
Section WithHost.
Context {builtins : Builtins} {clock : Clock}.

(** [validateRequest(request)]: the request itself and [params] are there
    by the request type; the remaining checks follow. *)
Definition validateRequest (request : Request) : Error + bool :=
  if negb (truthy_string (tool_name request)) then inl MissingRequiredParameters
  else match arguments request with
       | None => inl MissingRequiredParameters
       | Some _ =>
           if existsb (String.eqb (tool_name request)) ["business_intelligence"]
           then inr true
           else inl InvalidToolName
       end.

(** [isValidDate(dateString)] *)
Definition isValidDate (dateString : string) : bool :=
  match Date_getTime dateString with Some _ => true | None => false end.

(** [start > end] on two [Date] objects: a comparison of their time values,
    false when either is [NaN]. *)
Definition date_gt (a b : string) : bool :=
  match Date_getTime a, Date_getTime b with
  | Some x, Some y => (y <? x)%Z
  | _, _ => false
  end.

(** [validateDateRange(dateRange)] *)
Definition validateDateRange (dateRange : option DateRange) : Error + bool :=
  match dateRange with
  | None => inr true
  | Some dr =>
      if truthy_opt_string (start dr)
         && negb (match start dr with Some s => isValidDate s | None => true end)
      then inl InvalidStartDateFormat
      else if truthy_opt_string (end_ dr)
              && negb (match end_ dr with Some e => isValidDate e | None => true end)
      then inl InvalidEndDateFormat
      else
        match start dr, end_ dr with
        | Some s, Some e =>
            if truthy_string s && truthy_string e && date_gt s e
            then inl StartAfterEnd
            else inr true
        | _, _ => inr true
        end
  end.

Definition validFilterKeys : list string :=
  ["customerTier"; "industry"; "region"; "productCategory"; "status"].

(** The body of [for (const key of Object.keys(filters))]. *)
Fixpoint validate_keys (filters : Filters) (keys : list string) : Error + bool :=
  match keys with
  | [] => inr true
  | key :: rest =>
      if negb (existsb (String.eqb key) validFilterKeys)
      then inl (InvalidFilterKey key)
      else
        match prop key filters with
        | Some values =>
            if forallb is_string values then validate_keys filters rest
            else inl (InvalidFilterValueType key)
        | None => validate_keys filters rest
        end
  end.

(** [validateFilters(filters)] *)
Definition validateFilters (filters : option Filters) : Error + bool :=
  match filters with
  | None => inr true
  | Some fs => validate_keys fs (map fst fs)
  end.


(** *** sanitizeInput *)

(** A JSON value; the entries of an object in the order [Object.entries]
    lists them. *)
#[warnings="-register-all"]
Inductive Json : Type :=
| JsonNull
| JsonBool (b : bool)
| JsonNumber (n : float)
| JsonString (s : string)
| JsonArray (items : list Json)
| JsonObject (entries : list (string * Json)).

(** The characters the replace pattern removes: single quote, double
    quote, backslash and semicolon. *)
Definition removed (c : ascii) : bool :=
  Ascii.eqb c (Ascii.ascii_of_nat 39)
  || Ascii.eqb c (Ascii.ascii_of_nat 34)
  || Ascii.eqb c (Ascii.ascii_of_nat 92)
  || Ascii.eqb c (Ascii.ascii_of_nat 59).

(** [input.replace(pattern, '')] with the global flag. *)
Fixpoint strip (input : string) : string :=
  match input with
  | EmptyString => EmptyString
  | String c rest => if removed c then strip rest else String c (strip rest)
  end.

(** [Object.entries] of an array: its items under their indices. *)
Fixpoint index_entries (index : nat) (items : list Json) : list (string * Json) :=
  match items with
  | [] => []
  | item :: rest =>
      (string_of_Z (Z.of_nat index), item) :: index_entries (S index) rest
  end.

(** The own properties of the object built by [sanitized[key] = ...]: the
    assignment to the key [__proto__] goes to the prototype setter and
    leaves no own property. *)
Definition own_entries (entries : list (string * Json)) : list (string * Json) :=
  filter (fun entry => negb (String.eqb (fst entry) "__proto__")) entries.

(** [sanitizeInput(input)]: a string loses the removed characters; an
    object or an array ([typeof] gives [object] for both) becomes a new
    plain object with every value sanitized; anything else, [null]
    included, is returned as it is. *)
Fixpoint sanitizeInput (input : Json) : Json :=
  match input with
  | JsonString s => JsonString (strip s)
  | JsonArray items =>
      JsonObject (own_entries (index_entries 0 (map sanitizeInput items)))
  | JsonObject entries =>
      JsonObject
        (own_entries
           (map (fun entry => (fst entry, sanitizeInput (snd entry))) entries))
  | other => other
  end.

(** Every string value in the JSON value is free of the removed
    characters. *)
Fixpoint clean_string (s : string) : bool :=
  match s with
  | EmptyString => true
  | String c rest => negb (removed c) && clean_string rest
  end.

Fixpoint clean (v : Json) : bool :=
  match v with
  | JsonString s => clean_string s
  | JsonArray items => forallb clean items
  | JsonObject entries => forallb (fun entry => clean (snd entry)) entries
  | _ => true
  end.

(** *** authenticateRequest *)

Section Authentication.
(** [jwt.verify(token, secret)]: the decoded payload, [None] when it
    throws. *)
Variable Principal : Type.
Variable jwt_verify : string -> option Principal.

Inductive AuthError : Type :=
| MissingToken          (* 'Authentication required: missing token' *)
| InvalidOrExpiredToken (* 'Invalid or expired token' *).

(** Truthiness of a JSON scalar. *)
Definition truthy (v : option jsval) : bool :=
  match v with
  | None | Some JNull => false
  | Some (JBool b) => b
  | Some (JNum n) => truthy_number n
  | Some (JStr s) => truthy_string s
  end.

(** [verifyToken(token)] *)
Definition verifyToken (token : string) : AuthError + Principal :=
  match jwt_verify token with
  | Some decoded => inr decoded
  | None => inl InvalidOrExpiredToken
  end.

(** [authenticateRequest(request)], on [request.params.meta.authToken] and
    [request.params.arguments.authToken]; the result is the principal
    attached to the request. *)
Definition authenticateRequest (tokenFromMeta tokenFromArgs : option jsval)
  : AuthError + Principal :=
  let token := if truthy tokenFromMeta then tokenFromMeta else tokenFromArgs in
  match token with
  | Some (JStr s) => if truthy_string s then verifyToken s else inl MissingToken
  | _ => inl MissingToken
  end.

End Authentication.

End WithHost.
End SecurityManager.

(* ===================================================================== *)
(** ** Class [CustomerService] (imported from services/customerService.js) *)
(* ===================================================================== *)

Module CustomerService.

(** *** getCustomerChurnRisk *)

(** The [churn_risk] column: its [CASE] expression over the days since the
    customer's last order ([NULL] for a customer without orders). *)
Definition churn_risk (days_since_last_order : option QArith_base.Q) : string :=
  if sql_real_gt days_since_last_order 90 then "High Risk"
  else if sql_real_gt days_since_last_order 60 then "Medium Risk"
  else if sql_real_gt days_since_last_order 30 then "Low Risk"
  else "Active".

(** [HAVING churn_risk IN ('High Risk', 'Medium Risk')] *)
Definition at_risk (days_since_last_order : option QArith_base.Q) : bool :=
  existsb (String.eqb (churn_risk days_since_last_order))
          ["High Risk"; "Medium Risk"].

(** *** updateCustomerInfo *)





(** *** searchCustomers *)

Record SearchParams : Type := mkSearchParams {
  sp_query : option string;
  sp_customerTier : option string;
  sp_industry : option string;
  sp_location : option string;
  sp_status : option string;
  sp_limit : option float
}.

(** [if (value) { whereConditions.push(condition); params.push(...) }] *)
Definition search_condition (condition : string) (value : option string)
           (bound : string -> list jsval) : list string * list jsval :=
  match value with
  | Some v => if truthy_string v then ([condition], bound v) else ([], [])
  | None => ([], [])
  end.

Definition like_term (v : string) : jsval := JStr ("%" ++ v ++ "%").

(** [searchCustomers(searchParams)] up to its [db.all] call: the statement
    passed to it; [limit = 50] by default. *)
Definition searchCustomers_statement (searchParams : SearchParams) : Statement :=
  let query :=
    search_condition "(c.name LIKE ? OR c.email LIKE ? OR c.company LIKE ?)"
                     (sp_query searchParams)
                     (fun v => [like_term v; like_term v; like_term v]) in
  let customerTier :=
    search_condition "c.customer_tier = ?" (sp_customerTier searchParams)
                     (fun v => [JStr v]) in
  let industry :=
    search_condition "c.industry = ?" (sp_industry searchParams)
                     (fun v => [JStr v]) in
  let location :=
    search_condition "c.location LIKE ?" (sp_location searchParams)
                     (fun v => [like_term v]) in
  let status :=
    search_condition "c.status = ?" (sp_status searchParams)
                     (fun v => [JStr v]) in
  let whereConditions :=
    (fst query ++ fst customerTier ++ fst industry ++ fst location ++ fst status)%list in
  let params :=
    (snd query ++ snd customerTier ++ snd industry ++ snd location ++ snd status)%list in
  let limit :=
    match sp_limit searchParams with Some n => n | None => 50%float end in
  mkStatement
    ("SELECT c.*, COUNT(o.id) as order_count, MAX(o.order_date) as last_order_date, "
     ++ "SUM(o.total_amount) as lifetime_value FROM customers c "
     ++ "LEFT JOIN orders o ON c.id = o.customer_id "
     ++ where_of whereConditions
     ++ " GROUP BY c.id ORDER BY c.total_spent DESC LIMIT ?")
    (params ++ [JNum limit])%list.

End CustomerService.

(* ===================================================================== *)
(** ** Class [ReportGenerator] (imported from reports/reportGenerator.js) *)
(* ===================================================================== *)

Module ReportGenerator.
Section WithHost.
Context {builtins : Builtins} {clock : Clock}.
Local Open Scope db_scope.

Record PlanItem := {
  recommendation : string;
  timeline : string;
  resources : string;
  priority : string
}.

Record Plan := {
  immediate : list PlanItem;
  shortTerm : list PlanItem;
  longTerm : list PlanItem
}.

Definition immediate_item (rec : string) : PlanItem :=
  {| recommendation := rec; timeline := "1-2 weeks";
     resources := "Internal team"; priority := "High" |}.

Definition shortTerm_item (rec : string) : PlanItem :=
  {| recommendation := rec; timeline := "1-3 months";
     resources := "Internal team + external consultants"; priority := "Medium" |}.

Definition longTerm_item (rec : string) : PlanItem :=
  {| recommendation := rec; timeline := "3-6 months";
     resources := "Strategic planning team"; priority := "Low" |}.

(** The callback of [recommendations.forEach((rec, index) => ...)]. *)
Definition plan_step (plan : Plan) (rec : string) (index : nat) : Plan :=
  if (index <? 2)%nat then
    {| immediate := (immediate plan ++ [immediate_item rec])%list;
       shortTerm := shortTerm plan; longTerm := longTerm plan |}
  else if (index <? 4)%nat then
    {| immediate := immediate plan;
       shortTerm := (shortTerm plan ++ [shortTerm_item rec])%list;
       longTerm := longTerm plan |}
  else
    {| immediate := immediate plan; shortTerm := shortTerm plan;
       longTerm := (longTerm plan ++ [longTerm_item rec])%list |}.

Fixpoint forEach_from (index : nat) (recommendations : list string) (plan : Plan)
  : Plan :=
  match recommendations with
  | [] => plan
  | rec :: rest => forEach_from (S index) rest (plan_step plan rec index)
  end.

(** [generateImplementationPlan(recommendations)] *)
Definition generateImplementationPlan (recommendations : list string) : Plan :=
  forEach_from 0 recommendations
               {| immediate := []; shortTerm := []; longTerm := [] |}.

Record Recommendations := {
  r_priority : list string;
  all : list string;
  implementation : Plan
}.

(** What [generateRecommendations] makes of the three results'
    [recommendations] arrays once they are there. *)
Definition merge_recommendations
  (customerAnalytics salesPerformance inventoryInsights : list string)
  : Recommendations :=
  let recommendations :=
    (customerAnalytics ++ salesPerformance ++ inventoryInsights)%list in
  let uniqueRecommendations := set_spread recommendations in
  {| r_priority := slice 0 5 uniqueRecommendations;
     all := uniqueRecommendations;
     implementation := generateImplementationPlan uniqueRecommendations |}.

(** The [stock_status] column of the statement of [exportInventoryData]:
    its [CASE] expression. *)
Definition stock_status (quantity reorder_level : option Z) : string :=
  if sql_le quantity reorder_level then "Low Stock"
  else if sql_le quantity (sql_times2 reorder_level) then "Medium Stock"
  else "High Stock".

(** [buildWhereClause(filters, dateRange)]: the generator's own copy, without
    the [productCategory] filter. *)
Definition buildWhereClause (filters : Filters) (dateRange : option DateRange)
  : string :=
  where_of
    (filter_condition filters "customerTier" "c.customer_tier"
     ++ filter_condition filters "industry" "c.industry"
     ++ filter_condition filters "region" "o.region"
     ++ filter_condition filters "status" "o.status"
     ++ date_conditions dateRange)%list.

(** [estimatePageCount(data)]: [Math.ceil(data.length / 50)] for an array
    (given by its length), 1 for anything else ([None]). *)
Definition estimatePageCount (data_length : option nat) : nat :=
  match data_length with
  | Some n => (n / 50 + (if (n mod 50 =? 0) then 0 else 1))%nat
  | None => 1%nat
  end.

(** [generateRecommendations(filters, dateRange)] *)
Definition generateRecommendations (filters : Filters) (dateRange : option DateRange)
  : DB Recommendations :=
  customerAnalytics <- AnalyticsEngine.getCustomerAnalytics filters dateRange ;;
  salesPerformance <- AnalyticsEngine.getSalesPerformance filters dateRange ;;
  inventoryInsights <- AnalyticsEngine.getInventoryInsights filters ;;
  Ret (merge_recommendations (recommendations customerAnalytics)
                             (recommendations salesPerformance)
                             (recommendations inventoryInsights)).

End WithHost.
End ReportGenerator.

(* ===================================================================== *)
(** ** The tool server (index.ts) *)
(* ===================================================================== *)

Module Server.
Section WithHost.
Context {builtins : Builtins} {clock : Clock}.
Local Open Scope db_scope.

(** What [routeRequest] returns, by handler. *)
Inductive ToolResult (Other : Type) : Type :=
| CustomerAnalytics
    (r : AnalyticsResult AnalyticsEngine.CustomerAnalyticsData (list Row * list Row))
| SalesPerformance
    (r : AnalyticsResult AnalyticsEngine.SalesPerformanceData (list Row * list Row))
| InventoryInsights
    (r : AnalyticsResult AnalyticsEngine.InventoryInsightsData
           (list AnalyticsEngine.InventoryStatusRow * list Row))
| SalesTrends
    (r : AnalyticsResult AnalyticsEngine.SalesTrendsData
           (list MonthlyRow * list AnalyticsEngine.TrendPoint))
| CustomerBehavior
    (r : AnalyticsResult AnalyticsEngine.CustomerBehaviorData (list Row * list Row))
| RevenueForecast
    (r : AnalyticsResult AnalyticsEngine.RevenueForecastData
           (list MonthRevenueRow * list AnalyticsEngine.ForecastPoint))
| OperationalMetrics
    (r : AnalyticsResult AnalyticsEngine.OperationalMetricsData
           (OrderMetricsRow * list Row))
| FinancialSummary
    (r : AnalyticsResult AnalyticsEngine.FinancialSummaryData
           (list ProfitRow * FinancialMetricsRow))
| InventoryLevels (r : InventoryService.InventoryLevels)
| SalesOpportunity (r : SalesService.OpportunityResponse)
| OtherResult (r : Other).

(** The response envelope: [{ content: [{ type: 'text', text }] }], with
    [isError: true] and the text [`Error: ${error.message}`] on failure.
    The result is kept as it is before [JSON.stringify]. *)
Inductive Response (Other : Type) : Type :=
| Success (r : ToolResult Other)
| IsError (text : string).

Arguments IsError {Other} text.

Section Routing.
(** The handlers of the remaining operations (report generation, customer
    records, product and order analytics, export), whose bodies this
    development does not go into. *)
Variable Other : Type.
Variable other_handler : Operation -> Args -> DB Other.

Definition empty_filters : Filters := [].

Definition empty_parameters : Parameters :=
  mkParameters None None None None None None None None None None None.

(** [routeRequest(toolName, args)]; [parameters = {}] and [filters = {}] by
    default. *)
Definition routeRequest (toolName : string) (args : Args) : DB (ToolResult Other) :=
  let parameters :=
    match parameters args with Some p => p | None => empty_parameters end in
  let filters := match filters args with Some f => f | None => empty_filters end in
  let dateRange := dateRange args in
  match operation args with
  | get_customer_analytics =>
      r <- AnalyticsEngine.getCustomerAnalytics filters dateRange ;;
      Ret (CustomerAnalytics Other r)
  | get_sales_performance =>
      r <- AnalyticsEngine.getSalesPerformance filters dateRange ;;
      Ret (SalesPerformance Other r)
  | get_inventory_insights =>
      r <- AnalyticsEngine.getInventoryInsights filters ;;
      Ret (InventoryInsights Other r)
  | predict_sales_trends =>
      r <- AnalyticsEngine.predictSalesTrends filters dateRange ;;
      Ret (SalesTrends Other r)
  | analyze_customer_behavior =>
      r <- AnalyticsEngine.analyzeCustomerBehavior filters dateRange ;;
      Ret (CustomerBehavior Other r)
  | get_revenue_forecast =>
      r <- AnalyticsEngine.getRevenueForecast filters dateRange ;;
      Ret (RevenueForecast Other r)
  | get_operational_metrics =>
      r <- AnalyticsEngine.getOperationalMetrics filters dateRange ;;
      Ret (OperationalMetrics Other r)
  | get_financial_summary =>
      r <- AnalyticsEngine.getFinancialSummary filters dateRange ;;
      Ret (FinancialSummary Other r)
  | check_inventory_levels =>
      r <- InventoryService.checkInventoryLevels parameters ;;
      Ret (InventoryLevels Other r)
  | create_sales_opportunity =>
      r <- SalesService.createSalesOpportunity parameters ;;
      Ret (SalesOpportunity Other r)
  | op =>
      r <- other_handler op args ;;
      Ret (OtherResult r)
  end.

(** [try { ... } catch (error) { return { ..., isError: true } }] around a
    handler. *)
Fixpoint catch {A} (p : DB A) (handler : Error -> A) : DB A :=
  match p with
  | Ret a => Ret a
  | Throw e => Ret (handler e)
  | Select q k => Select q (fun r => catch (k r) handler)
  | Run u k => Run u (fun r => catch (k r) handler)
  end.

Definition error_response (e : Error) : Response Other :=
  IsError ("Error: " ++ message e).

(** The [CallToolRequestSchema] handler: [validateRequest], then the schema
    parse (which the typed [Args] have passed), then [routeRequest]. *)
Definition callTool (request : Request) : DB (Response Other) :=
  catch
    (match SecurityManager.validateRequest request with
     | inl e => Throw e
     | inr _ =>
         match arguments request with
         | None => Throw MissingRequiredParameters
         | Some validatedArgs =>
             result <- routeRequest (tool_name request) validatedArgs ;;
             Ret (Success result)
         end
     end)
    error_response.

End Routing.
End WithHost.
End Server.

(* ===================================================================== *)
(** ** Stores and inputs used in the examples *)
(* ===================================================================== *)

(** A database without orders and without inventory: every count is 0,
    every other aggregate is [NULL], every row set is empty. *)
Definition no_orders_answer (R : Type) (q : Query R) : R :=
  match q in Query R return R with
  | CA_totalCustomers _ => {| count := 0 |}
  | CA_customerTierDistribution _ => []
  | CA_industryBreakdown _ => []
  | CA_customerLifetimeValue _ =>
      {| avg_clv := None; max_clv := None; min_clv := None |}
  | SP_salesMetrics _ =>
      {| sm_total_orders := 0; sm_total_revenue := None;
         sm_avg_order_value := None; sm_unique_customers := 0 |}
  | SP_monthlySales _ => []
  | SP_salesRepPerformance _ => []
  | II_inventoryStatus => []
  | II_categoryBreakdown => []
  | II_warehouseDistribution => []
  | PT_historicalData _ => []
  | CB_customerSegments _ => []
  | CB_purchasePatterns _ => []
  | CB_customerRetention _ => {| total_customers := 0; repeat_customers := 0 |}
  | RF_currentRevenue _ => {| total_revenue := None |}
  | RF_monthlyGrowth _ => []
  | OM_orderMetrics _ =>
      {| total_orders := 0; delivered_orders := 0; cancelled_orders := 0;
         avg_order_age_days := None |}
  | OM_paymentMethods _ => []
  | FS_financialMetrics _ =>
      {| fm_total_revenue := None; fm_total_orders := 0;
         fm_avg_order_value := None; fm_unique_customers := 0 |}
  | FS_productProfitability _ => []
  | CustomerById _ => None
  | ProductById _ => None
  | SF_historicalData => []
  | CI_inventory _ _ _ => []
  | CI_summary _ _ =>
      {| total_products := 0; low_stock_count := None;
         total_inventory_value := None; avg_quantity := None |}
  end.

Definition no_orders_store : Store :=
  mkStore (fun (_ : unit) => no_orders_answer) (fun s _ => s).

(** Six months of orders, 1000 a month: the history has a recent half and
    no older half. *)
Definition six_months : list MonthlyRow :=
  map (fun m => {| month := Some m; revenue := Some 1000%float; orders := 10%float |})
      ["2024-06"; "2024-05"; "2024-04"; "2024-03"; "2024-02"; "2024-01"].

Definition six_months_answer (R : Type) (q : Query R) : R :=
  match q in Query R return R with
  | PT_historicalData _ => six_months
  | SF_historicalData => six_months
  | q' => no_orders_answer q'
  end.

Definition six_months_store : Store :=
  mkStore (fun (_ : unit) => six_months_answer) (fun s _ => s).

(** A store with a customer table and a product table, which keeps the
    [db.run] statements it has executed. *)
Record Tables : Type := mkTables {
  t_customers : list (string * Row);
  t_products : list (string * Row);
  t_executed : list Update
}.

Fixpoint row_by_id (id : string) (table : list (string * Row)) : option Row :=
  match table with
  | [] => None
  | (k, r) :: rest => if String.eqb k id then Some r else row_by_id id rest
  end.

Definition tables_answer (s : Tables) (R : Type) (q : Query R) : R :=
  match q in Query R return R with
  | CustomerById id => row_by_id id (t_customers s)
  | ProductById id => row_by_id id (t_products s)
  | q' => no_orders_answer q'
  end.

Definition tables_apply (s : Tables) (u : Update) : Tables :=
  mkTables (t_customers s) (t_products s) (t_executed s ++ [u])%list.

Definition tables_store : Store := mkStore tables_answer tables_apply.

Definition sample_tables : Tables :=
  mkTables
    [("CUST001", [("id", SqlText "CUST001"); ("name", SqlText "Acme Corporation")])]
    [("PROD001", [("id", SqlText "PROD001"); ("name", SqlText "Enterprise Server")])]
    [].

Definition sample_clock : Clock :=
  {| Date_now := 1700000000000%Z;
     Date_toISOString := "2023-11-14T22:13:20.000Z";
     month_ahead := fun i =>
       nth i ["2023-11"; "2023-12"; "2024-01"; "2024-02"; "2024-03"; "2024-04";
              "2024-05"; "2024-06"; "2024-07"; "2024-08"; "2024-09"; "2024-10";
              "2024-11"] EmptyString |}.



(** The metric [name] of an analytic result that was returned. *)
Definition returned_metric {S D T} (name : string)
           (o : Outcome S (AnalyticsResult D T)) : option float :=
  match result o with
  | inr r => metric name (metrics r)
  | inl _ => None
  end.

(** The command text of an issued [SELECT]. *)
Definition command_text (i : Issued) : option string :=
  match i with
  | IssuedSelect text _ => Some text
  | IssuedRun _ => None
  end.

(** No [db.run] statement among the statements issued. *)
Definition no_write (l : list Issued) : Prop :=
  forall u, ~ In (IssuedRun u) l.

(** Twelve months of orders whose older half sums to 0 (orders of amount
    0), the recent half 1000 a month. *)
Definition older_half_zero : list MonthlyRow :=
  (map (fun m => {| month := Some m; revenue := Some 1000%float; orders := 10%float |})
       ["2024-12"; "2024-11"; "2024-10"; "2024-09"; "2024-08"; "2024-07"]
   ++ map (fun m => {| month := Some m; revenue := Some 0%float; orders := 1%float |})
          ["2024-06"; "2024-05"; "2024-04"; "2024-03"; "2024-02"; "2024-01"])%list.


(** [{ customerId, productId, quantity, estimatedValue }] *)
Definition opportunity_parameters (customerId productId : string)
           (quantity estimatedValue : float) : Parameters :=
  mkParameters (Some customerId) (Some productId) (Some quantity)
               (Some estimatedValue) None None None None None None None.

(** Confidence scores that do not go up along the series. *)
Fixpoint non_increasing (l : list float) : bool :=
  match l with
  | [] => true
  | x :: rest =>
      match rest with
      | [] => true
      | y :: _ => PrimFloat.leb y x && non_increasing rest
      end
  end.

(** The operations whose handlers are modelled here. *)
Definition modelled (op : Operation) : bool :=
  match op with
  | get_customer_analytics | get_sales_performance | get_inventory_insights
  | predict_sales_trends | analyze_customer_behavior | get_revenue_forecast
  | get_operational_metrics | get_financial_summary | check_inventory_levels
  | create_sales_opportunity => true
  | _ => false
  end.

(** A filters object without the property [key]. *)
Fixpoint without (key : string) (filters : Filters) : Filters :=
  match filters with
  | [] => []
  | (k, v) :: rest =>
      if String.eqb k key then without key rest else (k, v) :: without key rest
  end.

(** The array under [key] holds at least one value. *)
Definition populated (key : string) (filters : Filters) : bool :=
  match prop key filters with
  | Some (_ :: _) => true
  | _ => false
  end.

(** A filters object reduced to the properties of the allow-list. *)
Definition allowed_only (filters : Filters) : Filters :=
  filter (fun entry => existsb (String.eqb (fst entry))
                               SecurityManager.validFilterKeys)
         filters.

(** A host for the worked instances.  Dates of the form YYYY-MM-DD get
    their time value (milliseconds since 1970-01-01, UTC); the instances
    hold no number that is printed, raised to a power or rounded, and those
    three built-ins are given their value at 0, at exponent 1 and on
    integers. *)
Definition digit_of (c : ascii) : option Z :=
  let n := Z.of_nat (nat_of_ascii c) in
  if ((48 <=? n) && (n <=? 57))%Z then Some (n - 48)%Z else None.

Fixpoint number_of_digits (s : string) (acc : Z) : option Z :=
  match s with
  | EmptyString => Some acc
  | String c rest =>
      match digit_of c with
      | Some d => number_of_digits rest (10 * acc + d)%Z
      | None => None
      end
  end.

(** Days from 1970-01-01 to the civil date [y]-[m]-[d]. *)
Definition days_from_civil (y m d : Z) : Z :=
  let y' := (if m <=? 2 then y - 1 else y)%Z in
  let era := (y' / 400)%Z in
  let yoe := (y' - era * 400)%Z in
  let doy := ((153 * (if m >? 2 then m - 3 else m + 9) + 2) / 5 + d - 1)%Z in
  let doe := (yoe * 365 + yoe / 4 - yoe / 100 + doy)%Z in
  (era * 146097 + doe - 719468)%Z.

Definition iso_date_time (s : string) : option Z :=
  if negb (String.length s =? 10)%nat then None
  else if negb (String.eqb (substring 4 1 s) "-" && String.eqb (substring 7 1 s) "-")
  then None
  else
    match number_of_digits (substring 0 4 s) 0,
          number_of_digits (substring 5 2 s) 0,
          number_of_digits (substring 8 2 s) 0 with
    | Some y, Some m, Some d =>
        if ((1 <=? m) && (m <=? 12) && (1 <=? d) && (d <=? 31))%Z
        then Some (days_from_civil y m d * 86400000)%Z
        else None
    | _, _, _ => None
    end.

Definition sample_builtins : Builtins :=
  {| Number_toString := fun _ => "0";
     Math_pow := fun x _ => x;
     Math_round := fun x => x;
     Date_getTime := iso_date_time |}.


(** The placeholder character of a statement. *)
Definition placeholder : ascii := Ascii.ascii_of_nat 63.

(* ===================================================================== *)
(** ** Properties *)
(* ===================================================================== *)

(** *** Stock status *)


Lemma stock_status_null_column (reorder_level : option Z) :
  AnalyticsEngine.stock_status None reorder_level = "High Stock".
Proof. destruct reorder_level; reflexivity. Qed.


(** *** Report assembly *)








(** From index 4 on, [forEach] only extends the long-term tier. *)
Lemma forEach_from_long (recs : list string) (index : nat) (plan : ReportGenerator.Plan) :
  (4 <= index)%nat ->
  ReportGenerator.forEach_from index recs plan
  = {| ReportGenerator.immediate := ReportGenerator.immediate plan;
       ReportGenerator.shortTerm := ReportGenerator.shortTerm plan;
       ReportGenerator.longTerm :=
         (ReportGenerator.longTerm plan
          ++ map ReportGenerator.longTerm_item recs)%list |}.
Proof.
  revert index plan. induction recs as [| rec rest IH]; intros index plan Hle; simpl.
  - rewrite app_nil_r. destruct plan; reflexivity.
  - rewrite IH by lia. unfold ReportGenerator.plan_step.
    destruct (Nat.ltb_spec index 2) as [Hlt | _]; [lia |].
    destruct (Nat.ltb_spec index 4) as [Hlt | _]; [lia |].
    simpl. rewrite <- app_assoc. reflexivity.
Qed.

Lemma generateImplementationPlan_tiers (recs : list string) :
  ReportGenerator.generateImplementationPlan recs
  = {| ReportGenerator.immediate :=
         map ReportGenerator.immediate_item (firstn 2 recs);
       ReportGenerator.shortTerm :=
         map ReportGenerator.shortTerm_item (firstn 2 (skipn 2 recs));
       ReportGenerator.longTerm :=
         map ReportGenerator.longTerm_item (skipn 4 recs) |}.
Proof.
  unfold ReportGenerator.generateImplementationPlan.
  destruct recs as [| a [| b [| c [| d rest]]]]; try reflexivity.
  simpl. rewrite forEach_from_long by lia. reflexivity.
Qed.


(** [generateRecommendations] returns the merge of the three results'
    recommendation arrays, whatever the store answers. *)
Lemma generateRecommendations_merges {builtins : Builtins}
      (st : Store) (s : state st) (fs : Filters) (dr : option DateRange) :
  exists customerAnalytics salesPerformance inventoryInsights,
    result (exec st (ReportGenerator.generateRecommendations fs dr) s)
    = inr (ReportGenerator.merge_recommendations
             customerAnalytics salesPerformance inventoryInsights)
    /\ List.length (ReportGenerator.all
                      (ReportGenerator.merge_recommendations
                         customerAnalytics salesPerformance inventoryInsights))
       = 9%nat.
Proof.
  do 3 eexists. split; [reflexivity |]. vm_compute. reflexivity.
Qed.


(** *** The store is only read *)

Lemma read_only_exec (st : Store) {A} (p : DB A) (s : state st) :
  read_only p ->
  final (exec st p s) = s /\ no_write (issued (exec st p s)).
Proof.
  intros Hro. induction Hro as [a | e | R q k Hk IH]; simpl.
  - split; [reflexivity | intros u []].
  - split; [reflexivity | intros u []].
  - destruct (IH (answer st s q)) as [Hfinal Hnow]. split; [exact Hfinal |].
    intros u [Hhead | Htail]; [discriminate | exact (Hnow u Htail)].
Qed.

Lemma createSalesOpportunity_read_only {clock : Clock} (d : Parameters) :
  read_only (SalesService.createSalesOpportunity d).
Proof.
  unfold SalesService.createSalesOpportunity.
  destruct (customerId d) as [cid |]; [| constructor].
  destruct (productId d) as [pid |]; [| constructor].
  destruct (p_quantity d) as [q |]; [| constructor].
  destruct (estimatedValue d) as [v |]; [| constructor].
  destruct (SalesService.missing_required d); [constructor |].
  cbn. constructor. intros [crow |]; [| constructor].
  cbn. constructor. intros [prow |]; constructor.
Qed.

(** By contrast, the inventory update does write: the store of the examples
    has executed its statement afterwards. *)
Lemma updateInventoryLevels_writes (u : InventoryService.InventoryUpdate) :
  t_executed
    (final (exec tables_store (InventoryService.updateInventoryLevels [u])
                 sample_tables))
  = [UpdateInventory (InventoryService.u_quantity u)
                     (InventoryService.u_reorderLevel u)
                     (InventoryService.u_productId u)
                     (InventoryService.u_warehouse u)].
Proof. reflexivity. Qed.

Section Properties.
Context {builtins : Builtins} {clock : Clock}.

(** *** Filter compilation *)

(** The sibling path binds its values: for [check_inventory_levels] the
    command text is the same for every category, and the category travels
    in the parameter list. *)
Lemma checkInventoryLevels_binds_values (a a' : ascii) (category category' : string)
      (st : Store) (s : state st) :
  let filters c :=
    mkParameters None None None None None None None (Some c) None None None in
  let issued_for c :=
    issued (exec st (InventoryService.checkInventoryLevels (filters c)) s) in
  map command_text (issued_for (String a category))
  = map command_text (issued_for (String a' category'))
  /\ issued_for (String a category)
     = [ IssuedSelect
           (sql_text (CI_inventory
                        ("WHERE p.status = " ++ dquote ++ "active" ++ dquote
                         ++ " AND p.category = ?")
                        "i.quantity ASC" [String a category]))
           [String a category];
         IssuedSelect
           (sql_text (CI_summary
                        ("WHERE p.status = " ++ dquote ++ "active" ++ dquote
                         ++ " AND p.category = ?")
                        [String a category]))
           [String a category] ].
Proof. split; reflexivity. Qed.

Lemma append_quote_paren (v : string) :
  ("'" ++ v ++ "'") ++ ")" = "'" ++ v ++ "')".
Proof.
  simpl. f_equal. induction v as [| c v IH]; simpl; [reflexivity | now rewrite IH].
Qed.

(** C1 (the code departs from it): [buildWhereClause] writes every filter
    value and date into the WHERE text between quotes, so the text varies
    with the value and the statements reach the store with an empty
    parameter list; a value that closes the quote becomes command text. *)
Theorem C1_filter_values_spliced_into_query_text :
  (forall v : string,
      AnalyticsEngine.buildWhereClause [("customerTier", [JStr v])] None
      = "WHERE c.customer_tier IN ('" ++ v ++ "')")
  /\ (forall v : string,
         SalesService.buildWhereClause [("region", [JStr v])] None
         = "WHERE o.region IN ('" ++ v ++ "')")
  /\ (forall (a : ascii) (d : string),
         AnalyticsEngine.buildWhereClause
           [] (Some (mkDateRange (Some (String a d)) None))
         = "WHERE o.order_date >= '" ++ String a d ++ "'")
  /\ AnalyticsEngine.buildWhereClause [("customerTier", [JStr "gold"])] None
     <> AnalyticsEngine.buildWhereClause [("customerTier", [JStr "silver"])] None
  /\ (forall (st : Store) (s : state st),
         issued (exec st (AnalyticsEngine.getOperationalMetrics
                            [("customerTier", [JStr "x') OR ('1'='1"])] None) s)
         = [ IssuedSelect
               (sql_text (OM_orderMetrics
                            "WHERE c.customer_tier IN ('x') OR ('1'='1')")) [];
             IssuedSelect
               (sql_text (OM_paymentMethods
                            "WHERE c.customer_tier IN ('x') OR ('1'='1')")) [] ]).
Proof.
  split; [| split; [| split; [| split]]].
  - intros v. cbn. do 26 f_equal. apply append_quote_paren.
  - intros v. cbn. do 19 f_equal. apply append_quote_paren.
  - intros a d. reflexivity.
  - cbn. discriminate.
  - intros st s. reflexivity.
Qed.

(** *** Ratio metrics *)

(** C2 (the code departs from it): over an order set with zero orders the
    ratio metrics are not 0.  The counts are 0 and the revenue sum is NULL,
    the handlers divide without a guard, and [0 / 0] is [NaN]: fulfillment
    rate, cancellation rate, retention rate and profit margin all come back
    as [NaN]. *)
Theorem C2_ratio_metrics_are_nan_on_empty_order_set
        (filters : Filters) (dateRange : option DateRange) :
  returned_metric "fulfillmentRate"
    (exec no_orders_store
          (AnalyticsEngine.getOperationalMetrics filters dateRange) tt) = Some nan
  /\ returned_metric "cancellationRate"
       (exec no_orders_store
             (AnalyticsEngine.getOperationalMetrics filters dateRange) tt) = Some nan
  /\ returned_metric "retentionRate"
       (exec no_orders_store
             (AnalyticsEngine.analyzeCustomerBehavior filters dateRange) tt) = Some nan
  /\ returned_metric "profitMargin"
       (exec no_orders_store
             (AnalyticsEngine.getFinancialSummary filters dateRange) tt) = Some nan
  /\ (forall avg : option float,
         AnalyticsEngine.fulfillmentRate_of
           {| total_orders := 0; delivered_orders := 0; cancelled_orders := 0;
              avg_order_age_days := avg |} = nan)
  /\ is_nan nan = true /\ PrimFloat.eqb nan 0 = false.
Proof.
  repeat split; try (vm_compute; reflexivity).
Qed.

(** *** Growth rate and forecasts *)

(** Whatever the history, the three confidence scores of
    [predict_sales_trends] are 0.9, 0.8, 0.7. *)
Lemma trend_forecast_confidence (historicalData : list MonthlyRow) :
  map AnalyticsEngine.tp_confidence (AnalyticsEngine.trend_forecast historicalData)
  = [0.9; 0.8; 0.7]%float.
Proof. vm_compute. reflexivity. Qed.

(** Whatever the revenue and the growth rate, the twelve confidence scores
    of [get_revenue_forecast] do not go up and stay at or above 0.3. *)
Lemma forecast_point_confidence (total_revenue : option float) (growthRate : float) :
  let confidences :=
    map AnalyticsEngine.fp_confidence
        (map (AnalyticsEngine.forecast_point total_revenue growthRate) (seq 1 12)) in
  non_increasing confidences = true
  /\ forallb (fun c => PrimFloat.leb 0.3 c) confidences = true
  /\ List.length confidences = 12%nat.
Proof. vm_compute. repeat split. Qed.

(** C5 (the code departs from it): in [predict_sales_trends] the growth
    rate is [((recentAvg - olderAvg) / olderAvg) * 100] with no test of
    [olderAvg].  With at most six months of history the older half is empty,
    its average is [0 / 0] and the growth rate is [NaN]; with an older half
    that sums to 0 the growth rate is [Infinity].  [getSalesForecast], the
    sales service's copy of the computation, tests [olderAvg > 0] and
    returns 0 on the same input. *)
Theorem C5_growth_rate_is_nan_without_older_half
        (filters : Filters) (dateRange : option DateRange) :
  AnalyticsEngine.olderAvg_of six_months = nan
  /\ AnalyticsEngine.growthRate_of six_months = nan
  /\ AnalyticsEngine.growthRate_of [] = nan
  /\ returned_metric "growthRate"
       (exec six_months_store
             (AnalyticsEngine.predictSalesTrends filters dateRange) tt) = Some nan
  /\ AnalyticsEngine.olderAvg_of older_half_zero = 0%float
  /\ AnalyticsEngine.growthRate_of older_half_zero = infinity
  /\ SalesService.growthRate_of six_months = 0%float
  /\ SalesService.growthRate_of older_half_zero = 0%float.
Proof.
  repeat split; vm_compute; reflexivity.
Qed.

(** C6 (the code departs from it in the revenue part): the confidence
    scores of both forecasts never go up and never fall below the floor
    (0.5 for [predict_sales_trends], 0.3 for [get_revenue_forecast]); but
    the predicted revenue is [Math.max(0, forecastRevenue)], which is [NaN]
    when the extrapolation is [NaN], and with at most six months of history
    (growth rate [NaN], see C5) every predicted revenue of
    [predict_sales_trends] is [NaN], which is not >= 0. *)
Theorem C6_forecast_confidence_holds_revenue_is_nan
        (filters : Filters) (dateRange : option DateRange) :
  (forall historicalData : list MonthlyRow,
      let confidences :=
        map AnalyticsEngine.tp_confidence
            (AnalyticsEngine.trend_forecast historicalData) in
      non_increasing confidences = true
      /\ forallb (fun c => PrimFloat.leb 0.5 c) confidences = true
      /\ List.length confidences = 3%nat)
  /\ (forall (total_revenue : option float) (growthRate : float),
         let confidences :=
           map AnalyticsEngine.fp_confidence
               (map (AnalyticsEngine.forecast_point total_revenue growthRate)
                    (seq 1 12)) in
         non_increasing confidences = true
         /\ forallb (fun c => PrimFloat.leb 0.3 c) confidences = true
         /\ List.length confidences = 12%nat)
  /\ map AnalyticsEngine.predicted_revenue (AnalyticsEngine.trend_forecast six_months)
     = [nan; nan; nan]
  /\ forallb (fun p => PrimFloat.leb 0 (AnalyticsEngine.predicted_revenue p))
             (AnalyticsEngine.trend_forecast six_months) = false
  /\ returned_metric "forecastedRevenue"
       (exec six_months_store
             (AnalyticsEngine.predictSalesTrends filters dateRange) tt) = Some nan
  /\ Math_max 0 nan = nan
  /\ Math_max 0 (-5) = 0%float.
Proof.
  split.
  { intros historicalData confidences. subst confidences.
    rewrite trend_forecast_confidence. vm_compute. repeat split. }
  split.
  { intros total_revenue growthRate. apply forecast_point_confidence. }
  repeat split; vm_compute; reflexivity.
Qed.

(** *** Dispatch *)


(** The validator itself turns down every filters object that holds a key
    outside the allow-list. *)
Lemma validate_keys_rejects_unknown_key (fs : Filters) (keys : list string)
      (key : string) :
  In key keys ->
  existsb (String.eqb key) SecurityManager.validFilterKeys = false ->
  exists e, SecurityManager.validate_keys fs keys = inl e
            /\ kind e = ValidationError.
Proof.
  intros Hin Hbad. induction keys as [| k rest IH]; [contradiction |].
  cbn [SecurityManager.validate_keys].
  destruct (existsb (String.eqb k) SecurityManager.validFilterKeys) eqn:Hk;
    cbn [negb].
  - destruct Hin as [-> | Hin]; [congruence |].
    destruct (prop k fs) as [values |]; [| now apply IH].
    destruct (forallb is_string values); [now apply IH |].
    eexists. split; reflexivity.
  - eexists. split; reflexivity.
Qed.



(** *** Sales opportunities *)

(** A request that fails the required-field check fails on it, before any
    statement is issued. *)
Lemma createSalesOpportunity_missing_required
      (st : Store) (s : state st) (d : Parameters) :
  SalesService.missing_required d = true ->
  exec st (SalesService.createSalesOpportunity d) s
  = mkOutcome (inl MissingRequiredFields) s [].
Proof.
  intros Hmiss. unfold SalesService.createSalesOpportunity.
  destruct (customerId d), (productId d), (p_quantity d), (estimatedValue d);
    try reflexivity.
  rewrite Hmiss. reflexivity.
Qed.

(** C9 (as amended): a [create_sales_opportunity] request that passes the
    handler's required-field check and whose customerId or productId
    matches no row fails with a not-found error and performs no write: the
    store state after the call is the state before it. *)
Theorem C9_missing_reference_fails_without_write
        (st : Store) (s : state st) (d : Parameters) (cid pid : string) :
  customerId d = Some cid ->
  productId d = Some pid ->
  SalesService.missing_required d = false ->
  answer st s (CustomerById cid) = None \/ answer st s (ProductById pid) = None ->
  let o := exec st (SalesService.createSalesOpportunity d) s in
  (exists e, result o = inl e
             /\ kind e = NotFoundError
             /\ (e = CustomerNotFound cid \/ e = ProductNotFound pid))
  /\ final o = s
  /\ no_write (issued o).
Proof.
  intros Hcid Hpid Hreq Hnone o.
  destruct (read_only_exec st s (createSalesOpportunity_read_only d)) as [Hfinal Hnow].
  split; [| split; assumption].
  subst o. unfold SalesService.createSalesOpportunity.
  pose proof Hreq as Hreq'. unfold SalesService.missing_required in Hreq'.
  rewrite Hcid, Hpid in *.
  destruct (p_quantity d) as [q |];
    [| cbn in Hreq'; rewrite !orb_true_r in Hreq'; discriminate].
  destruct (estimatedValue d) as [v |];
    [| cbn in Hreq'; rewrite !orb_true_r in Hreq'; discriminate].
  rewrite Hreq. cbn.
  destruct (answer st s (CustomerById cid)) as [crow |] eqn:Hc; cbn.
  - destruct Hnone as [Habs | Hp]; [discriminate |].
    rewrite Hp. cbn. exists (ProductNotFound pid). auto.
  - exists (CustomerNotFound cid). auto.
Qed.

(** C10: on success [create_sales_opportunity] only reads.  It issues the
    two lookups (customer, product), builds the opportunity in memory with
    id "OPP" + timestamp and status "open", returns it with the two rows it
    read, and leaves the store as it was: no statement writes, no table is
    modified, the opportunity is not persisted. *)
Theorem C10_created_opportunity_is_not_persisted
        (st : Store) (s : state st) (d : Parameters) (cid pid : string)
        (crow prow : Row) :
  customerId d = Some cid ->
  productId d = Some pid ->
  SalesService.missing_required d = false ->
  answer st s (CustomerById cid) = Some crow ->
  answer st s (ProductById pid) = Some prow ->
  let o := exec st (SalesService.createSalesOpportunity d) s in
  final o = s
  /\ issued o = [ IssuedSelect "SELECT * FROM customers WHERE id = ?" [cid];
                  IssuedSelect "SELECT * FROM products WHERE id = ?" [pid] ]
  /\ read_only (SalesService.createSalesOpportunity d)
  /\ exists r,
      result o = inr r
      /\ SalesService.id (SalesService.opportunity r) = "OPP" ++ string_of_Z Date_now
      /\ SalesService.status (SalesService.opportunity r) = "open"
      /\ SalesService.o_customerId (SalesService.opportunity r) = cid
      /\ SalesService.o_productId (SalesService.opportunity r) = pid
      /\ SalesService.customer (SalesService.opportunity r) = crow
      /\ SalesService.product (SalesService.opportunity r) = prow.
Proof.
  intros Hcid Hpid Hreq Hc Hp o.
  split; [apply (read_only_exec st s (createSalesOpportunity_read_only d)) |].
  subst o. unfold SalesService.createSalesOpportunity.
  pose proof Hreq as Hreq'. unfold SalesService.missing_required in Hreq'.
  rewrite Hcid, Hpid in *.
  destruct (p_quantity d) as [q |];
    [| cbn in Hreq'; rewrite !orb_true_r in Hreq'; discriminate].
  destruct (estimatedValue d) as [v |];
    [| cbn in Hreq'; rewrite !orb_true_r in Hreq'; discriminate].
  rewrite Hreq. cbn. rewrite Hc. cbn. rewrite Hp. cbn.
  split; [reflexivity |].
  split.
  { constructor. intros [c |]; [| constructor]. cbn. constructor.
    intros [p |]; constructor. }
  eexists. repeat split.
Qed.

End Properties.

(** *** Worked instances on the store of the examples *)

(** C9, instance: customer CUST404 is not in the customer table; the
    request carries all four required fields. *)
Lemma C9_missing_reference_witness :
  let d := opportunity_parameters "CUST404" "PROD001" 5 25000 in
  let o := exec tables_store
                (@SalesService.createSalesOpportunity sample_clock d) sample_tables in
  (exists e, result o = inl e
             /\ kind e = NotFoundError
             /\ (e = CustomerNotFound "CUST404" \/ e = ProductNotFound "PROD001"))
  /\ final o = sample_tables
  /\ no_write (issued o).
Proof.
  exact (@C9_missing_reference_fails_without_write
           sample_clock tables_store sample_tables
           (opportunity_parameters "CUST404" "PROD001" 5 25000)
           "CUST404" "PROD001" eq_refl eq_refl eq_refl (or_introl eq_refl)).
Defined.

(** C9 as first stated fails: with quantity 0 and a customerId that matches
    no row, the request is turned down by the required-field check, with
    the validation error "Missing required fields: ..." and not with a
    not-found error. *)
Lemma C9_counterexample_required_fields_checked_first :
  let d := opportunity_parameters "CUST404" "PROD001" 0 25000 in
  let o := exec tables_store
                (@SalesService.createSalesOpportunity sample_clock d) sample_tables in
  answer tables_store sample_tables (CustomerById "CUST404") = None
  /\ result o = inl MissingRequiredFields
  /\ kind MissingRequiredFields = ValidationError
  /\ ~ (exists e, result o = inl e /\ kind e = NotFoundError).
Proof.
  cbv zeta. split; [reflexivity |]. split; [reflexivity |]. split; [reflexivity |].
  intros [e [Hres Hkind]]. vm_compute in Hres. inversion Hres; subst e. discriminate.
Qed.

(** C10, instance: customer CUST001 and product PROD001 are in the tables. *)
Lemma C10_created_opportunity_witness :
  let d := opportunity_parameters "CUST001" "PROD001" 5 25000 in
  let o := exec tables_store
                (@SalesService.createSalesOpportunity sample_clock d) sample_tables in
  final o = sample_tables
  /\ issued o = [ IssuedSelect "SELECT * FROM customers WHERE id = ?" ["CUST001"];
                  IssuedSelect "SELECT * FROM products WHERE id = ?" ["PROD001"] ]
  /\ read_only (@SalesService.createSalesOpportunity sample_clock d)
  /\ exists r,
      result o = inr r
      /\ SalesService.id (SalesService.opportunity r) = "OPP1700000000000"
      /\ SalesService.status (SalesService.opportunity r) = "open"
      /\ SalesService.o_customerId (SalesService.opportunity r) = "CUST001"
      /\ SalesService.o_productId (SalesService.opportunity r) = "PROD001"
      /\ SalesService.customer (SalesService.opportunity r)
         = [("id", SqlText "CUST001"); ("name", SqlText "Acme Corporation")]
      /\ SalesService.product (SalesService.opportunity r)
         = [("id", SqlText "PROD001"); ("name", SqlText "Enterprise Server")].
Proof.
  exact (@C10_created_opportunity_is_not_persisted
           sample_clock tables_store sample_tables
           (opportunity_parameters "CUST001" "PROD001" 5 25000)
           "CUST001" "PROD001" _ _ eq_refl eq_refl eq_refl eq_refl eq_refl).
Defined.

(* ===================================================================== *)
(** ** Further properties of the modelled code *)
(* ===================================================================== *)

(** *** Statements and their composition *)

Lemma exec_bind (st : Store) {A B} (m : DB A) (f : A -> DB B) (s : state st) :
  exec st (Db.bind m f) s
  = match result (exec st m s) with
    | inl e => mkOutcome (inl e) (final (exec st m s)) (issued (exec st m s))
    | inr a =>
        let o := exec st (f a) (final (exec st m s)) in
        mkOutcome (result o) (final o) (issued (exec st m s) ++ issued o)%list
    end.
Proof.
  revert s. induction m as [a | e | R q k IH | u k IH]; intros s; simpl.
  - destruct (exec st (f a) s); reflexivity.
  - reflexivity.
  - rewrite IH. destruct (result (exec st (k (answer st s q)) s)); reflexivity.
  - rewrite IH. destruct (result (exec st (k tt) (apply st s u))); reflexivity.
Qed.

Lemma exec_catch (st : Store) {A} (p : DB A) (handler : Error -> A) (s : state st) :
  exec st (Server.catch p handler) s
  = mkOutcome
      (inr (match result (exec st p s) with inl e => handler e | inr a => a end))
      (final (exec st p s)) (issued (exec st p s)).
Proof.
  revert s. induction p as [a | e | R q k IH | u k IH]; intros s; simpl;
    try reflexivity; rewrite IH; reflexivity.
Qed.

Lemma read_only_bind {A B} (m : DB A) (f : A -> DB B) :
  read_only m -> (forall a, read_only (f a)) -> read_only (Db.bind m f).
Proof.
  intros Hm Hf. induction Hm as [a | e | R q k Hk IH]; simpl.
  - apply Hf.
  - constructor.
  - constructor. exact IH.
Qed.

Lemma read_only_catch {A} (p : DB A) (handler : Error -> A) :
  read_only p -> read_only (Server.catch p handler).
Proof.
  intros Hp. induction Hp as [a | e | R q k Hk IH]; simpl; constructor. exact IH.
Qed.

Lemma read_only_select {R} (q : Query R) : read_only (select q).
Proof. constructor. intros r. constructor. Qed.

Section MoreProperties.
Context {builtins : Builtins} {clock : Clock}.

(** *** Filter compilation *)

Lemma prop_allowed_only (key : string) (fs : Filters) :
  existsb (String.eqb key) SecurityManager.validFilterKeys = true ->
  prop key (allowed_only fs) = prop key fs.
Proof.
  intros Hkey. unfold allowed_only.
  induction fs as [| [k v] rest IH]; [reflexivity |].
  cbn [filter fst].
  destruct (existsb (String.eqb k) SecurityManager.validFilterKeys) eqn:Hk;
    cbn [prop]; rewrite IH; [reflexivity |].
  destruct (String.eqb_spec k key) as [-> | Hne]; [congruence | reflexivity].
Qed.

(** X1: the WHERE text depends on nothing but the five allow-listed
    properties of the filters object: every other property can be deleted
    without changing it. *)
Theorem buildWhereClause_ignores_other_keys (fs : Filters) (dr : option DateRange) :
  AnalyticsEngine.buildWhereClause fs dr
  = AnalyticsEngine.buildWhereClause (allowed_only fs) dr.
Proof.
  unfold AnalyticsEngine.buildWhereClause, filter_condition.
  rewrite !prop_allowed_only by reflexivity. reflexivity.
Qed.

Lemma app_nil_iff {A} (l l' : list A) :
  (l ++ l')%list = [] <-> l = [] /\ l' = [].
Proof.
  split; [apply app_eq_nil | intros [-> ->]; reflexivity].
Qed.

Lemma where_of_empty (conditions : list string) :
  where_of conditions = "" <-> conditions = [].
Proof.
  unfold where_of. destruct conditions as [| c rest]; simpl.
  - tauto.
  - split; discriminate.
Qed.

Lemma filter_condition_empty (fs : Filters) (key column : string) :
  filter_condition fs key column = [] <-> populated key fs = false.
Proof.
  unfold filter_condition, populated.
  destruct (prop key fs) as [[| v values] |]; simpl; split;
    try reflexivity; discriminate.
Qed.

Lemma date_condition_empty (op : string) (bound : option string) :
  date_condition op bound = [] <-> truthy_opt_string bound = false.
Proof.
  unfold date_condition. destruct bound as [d |]; simpl; [| tauto].
  destruct (truthy_string d); split; try reflexivity; discriminate.
Qed.

(** X2: the WHERE text is empty exactly when none of the five filters
    holds a value and neither date bound is a non-empty string; an empty
    array and an empty date string count as absent. *)
Theorem buildWhereClause_empty_iff (fs : Filters) (dr : option DateRange) :
  AnalyticsEngine.buildWhereClause fs dr = ""
  <-> populated "customerTier" fs = false
      /\ populated "industry" fs = false
      /\ populated "region" fs = false
      /\ populated "productCategory" fs = false
      /\ populated "status" fs = false
      /\ match dr with
         | Some d => truthy_opt_string (start d) = false
                     /\ truthy_opt_string (end_ d) = false
         | None => True
         end.
Proof.
  unfold AnalyticsEngine.buildWhereClause. rewrite where_of_empty.
  rewrite !app_nil_iff. rewrite !filter_condition_empty.
  unfold date_conditions. destruct dr as [d |].
  - rewrite app_nil_iff, !date_condition_empty. tauto.
  - tauto.
Qed.

Lemma prop_without (key key' : string) (fs : Filters) :
  prop key (without key' fs)
  = if String.eqb key key' then None else prop key fs.
Proof.
  induction fs as [| [k v] rest IH]; simpl.
  - destruct (String.eqb key key'); reflexivity.
  - destruct (String.eqb_spec k key') as [-> | Hk]; simpl.
    + rewrite IH. destruct (String.eqb_spec key key') as [-> | Hne].
      * reflexivity.
      * destruct (String.eqb_spec key' key) as [-> | _]; [congruence | reflexivity].
    + rewrite IH. destruct (String.eqb_spec k key) as [-> | Hne].
      * destruct (String.eqb_spec key key'); [congruence | reflexivity].
      * reflexivity.
Qed.

(** X3: the four copies of [buildWhereClause] relate as follows.  The
    report generator's copy equals the sales service's; the sales service's
    is the engine's with the [productCategory] filter deleted; the
    inventory service's is the engine's with the [status] filter deleted. *)
Theorem buildWhereClause_copies (fs : Filters) (dr : option DateRange) :
  ReportGenerator.buildWhereClause fs dr = SalesService.buildWhereClause fs dr
  /\ SalesService.buildWhereClause fs dr
     = AnalyticsEngine.buildWhereClause (without "productCategory" fs) dr
  /\ InventoryService.buildWhereClause fs dr
     = AnalyticsEngine.buildWhereClause (without "status" fs) dr.
Proof.
  split; [reflexivity |].
  unfold SalesService.buildWhereClause, InventoryService.buildWhereClause,
    AnalyticsEngine.buildWhereClause, filter_condition.
  rewrite !prop_without. cbn [String.eqb Ascii.eqb Bool.eqb].
  split; reflexivity.
Qed.

(** *** Validators *)

Lemma validate_keys_accepts_iff (fs : Filters) (keys : list string) :
  SecurityManager.validate_keys fs keys = inr true
  <-> forall key, In key keys ->
        existsb (String.eqb key) SecurityManager.validFilterKeys = true
        /\ (forall values, prop key fs = Some values ->
                           forallb is_string values = true).
Proof.
  induction keys as [| k rest IH]; cbn [SecurityManager.validate_keys].
  - split; [intros _ key [] | reflexivity].
  - destruct (existsb (String.eqb k) SecurityManager.validFilterKeys) eqn:Hk;
      cbn [negb].
    + destruct (prop k fs) as [values |] eqn:Hprop.
      * destruct (forallb is_string values) eqn:Hvalues.
        -- rewrite IH. split.
           ++ intros Hrest key [<- | Hin]; [| now apply Hrest].
              split; [exact Hk |]. intros values' Heq. congruence.
           ++ intros Hall key Hin. apply Hall. now right.
        -- split; [discriminate |]. intros Hall.
           destruct (Hall k (or_introl eq_refl)) as [_ Hstr].
           specialize (Hstr values Hprop). congruence.
      * rewrite IH. split.
        -- intros Hrest key [<- | Hin]; [| now apply Hrest].
           split; [exact Hk |]. intros values' Heq. congruence.
        -- intros Hall key Hin. apply Hall. now right.
    + split; [discriminate |]. intros Hall.
      destruct (Hall k (or_introl eq_refl)) as [Hallowed _]. congruence.
Qed.

Lemma validate_keys_errors (fs : Filters) (keys : list string) (e : Error) :
  SecurityManager.validate_keys fs keys = inl e ->
  exists key, In key keys
              /\ (e = InvalidFilterKey key \/ e = InvalidFilterValueType key).
Proof.
  induction keys as [| k rest IH]; cbn [SecurityManager.validate_keys];
    [discriminate |].
  destruct (existsb (String.eqb k) SecurityManager.validFilterKeys); cbn [negb].
  - destruct (prop k fs) as [values |].
    + destruct (forallb is_string values).
      * intros H. destruct (IH H) as [key [Hin Hor]]. exists key. split; [now right | exact Hor].
      * intros H. inversion H. exists k. split; [now left | now right].
    + intros H. destruct (IH H) as [key [Hin Hor]]. exists key. split; [now right | exact Hor].
  - intros H. inversion H. exists k. split; [now left | now left].
Qed.

(** X4: [validateFilters] returns true exactly when every key of the
    filters object is on the allow-list and every array under a key holds
    strings only; otherwise it throws, and the error names a key of the
    object ("Invalid filter key" or "Invalid filter value type"). *)
Theorem validateFilters_accepts_iff (fs : Filters) :
  (SecurityManager.validateFilters (Some fs) = inr true
   <-> forall key, In key (map fst fs) ->
         existsb (String.eqb key) SecurityManager.validFilterKeys = true
         /\ (forall values, prop key fs = Some values ->
                            forallb is_string values = true))
  /\ (forall e, SecurityManager.validateFilters (Some fs) = inl e ->
                exists key, In key (map fst fs)
                            /\ (e = InvalidFilterKey key
                                \/ e = InvalidFilterValueType key))
  /\ SecurityManager.validateFilters None = inr true.
Proof.
  split; [apply validate_keys_accepts_iff |].
  split; [intros e; apply validate_keys_errors | reflexivity].
Qed.

(** X5: [validateDateRange] returns true exactly when each bound is
    absent, empty or a valid date and, if both are non-empty, the start is
    not after the end (equal dates pass); an invalid start is reported
    before anything is said about the end. *)
Theorem validateDateRange_accepts_iff (dr : DateRange) :
  (SecurityManager.validateDateRange (Some dr) = inr true
   <-> match start dr with
       | Some s => truthy_string s = false \/ SecurityManager.isValidDate s = true
       | None => True
       end
       /\ match end_ dr with
          | Some e => truthy_string e = false \/ SecurityManager.isValidDate e = true
          | None => True
          end
       /\ match start dr, end_ dr with
          | Some s, Some e =>
              truthy_string s && truthy_string e && SecurityManager.date_gt s e = false
          | _, _ => True
          end)
  /\ (forall s, start dr = Some s -> truthy_string s = true ->
                SecurityManager.isValidDate s = false ->
                SecurityManager.validateDateRange (Some dr) = inl InvalidStartDateFormat)
  /\ (forall d, Date_getTime d <> None ->
                SecurityManager.validateDateRange
                  (Some (mkDateRange (Some d) (Some d))) = inr true)
  /\ SecurityManager.validateDateRange None = inr true.
Proof.
  split; [| split; [| split; [| reflexivity]]].
  - unfold SecurityManager.validateDateRange.
    destruct dr as [[s |] [e |]]; cbn [start end_ truthy_opt_string].
    + destruct (truthy_string s) eqn:Hs, (SecurityManager.isValidDate s) eqn:Hvs,
        (truthy_string e) eqn:He, (SecurityManager.isValidDate e) eqn:Hve,
        (SecurityManager.date_gt s e) eqn:Hgt; cbn;
        split; try discriminate; try reflexivity; try tauto;
        intros [H1 [H2 H3]];
        try discriminate;
        try (destruct H1 as [H1 | H1]; discriminate);
        try (destruct H2 as [H2 | H2]; discriminate).
    + destruct (truthy_string s) eqn:Hs, (SecurityManager.isValidDate s) eqn:Hvs; cbn;
        split; try discriminate; try reflexivity; try tauto;
        intros [H1 _]; destruct H1 as [H1 | H1]; discriminate.
    + destruct (truthy_string e) eqn:He, (SecurityManager.isValidDate e) eqn:Hve; cbn;
        split; try discriminate; try reflexivity; try tauto;
        intros [_ [H2 _]]; destruct H2 as [H2 | H2]; discriminate.
    + cbn. tauto.
  - intros s Hstart Hs Hvs. unfold SecurityManager.validateDateRange.
    rewrite Hstart. cbn [truthy_opt_string]. rewrite Hs, Hvs. reflexivity.
  - intros d Hd. unfold SecurityManager.validateDateRange,
      SecurityManager.isValidDate, SecurityManager.date_gt.
    cbn [start end_ truthy_opt_string].
    destruct (Date_getTime d) as [t |]; [| congruence].
    rewrite Z.ltb_irrefl, !andb_false_r. cbn.
    destruct (truthy_string d); reflexivity.
Qed.

(** *** The tool handler *)


(** X7: a request for another tool, or one without arguments, is answered
    with an error response before anything reaches the store: no statement
    is issued and the store is as before. *)
Theorem callTool_rejects_before_store
        (Other : Type) (other_handler : Operation -> Args -> DB Other)
        (st : Store) (s : state st) (request : Request) :
  tool_name request <> "business_intelligence" \/ arguments request = None ->
  exists text,
    exec st (Server.callTool other_handler request) s
    = mkOutcome (inr (Server.IsError Other text)) s []
    /\ (text = "Error: Invalid tool name"
        \/ text = "Error: Missing required parameters").
Proof.
  intros Hbad. unfold Server.callTool. rewrite exec_catch.
  unfold SecurityManager.validateRequest.
  destruct (truthy_string (tool_name request)); cbn [negb].
  - destruct (arguments request) as [args |].
    + destruct Hbad as [Hname | Hnone]; [| discriminate].
      cbn [existsb]. rewrite orb_false_r.
      destruct (String.eqb_spec (tool_name request) "business_intelligence")
        as [Heq | _]; [contradiction |].
      eexists. split; [reflexivity | now left].
    + eexists. split; [reflexivity | now right].
  - eexists. split; [reflexivity | now right].
Qed.

(** X8: [create_sales_opportunity] through the tool handler, for a
    customerId that matches no row: the response is the error text
    "Error: Customer with ID <id> not found", the customer lookup is the
    only statement issued (the product is never looked up) and the store
    is as before. *)
Theorem callTool_unknown_customer
        (Other : Type) (other_handler : Operation -> Args -> DB Other)
        (st : Store) (s : state st) (p : Parameters) (cid : string)
        (fs : option Filters) (dr : option DateRange) (fmt : option Format) :
  customerId p = Some cid ->
  SalesService.missing_required p = false ->
  answer st s (CustomerById cid) = None ->
  exec st (Server.callTool other_handler
             (mkRequest "business_intelligence"
                (Some (mkArgs create_sales_opportunity (Some p) fs dr fmt)))) s
  = mkOutcome
      (inr (Server.IsError Other ("Error: Customer with ID " ++ cid ++ " not found")))
      s [IssuedSelect "SELECT * FROM customers WHERE id = ?" [cid]].
Proof.
  intros Hcid Hreq Hnone. unfold Server.callTool. rewrite exec_catch.
  cbn [SecurityManager.validateRequest tool_name arguments truthy_string
       String.eqb negb existsb].
  cbn -[SalesService.createSalesOpportunity message].
  unfold SalesService.createSalesOpportunity.
  pose proof Hreq as Hreq'. unfold SalesService.missing_required in Hreq'.
  rewrite Hcid in *.
  destruct (productId p) as [pid |];
    [| cbn in Hreq'; rewrite ?orb_true_r in Hreq'; discriminate].
  destruct (p_quantity p) as [q |];
    [| cbn in Hreq'; rewrite ?orb_true_r in Hreq'; discriminate].
  destruct (estimatedValue p) as [v |];
    [| cbn in Hreq'; rewrite ?orb_true_r in Hreq'; discriminate].
  rewrite Hreq. cbn -[message]. rewrite Hnone. reflexivity.
Qed.

Lemma analytics_handlers_read_only (fs : Filters) (dr : option DateRange) :
  read_only (AnalyticsEngine.getCustomerAnalytics fs dr)
  /\ read_only (AnalyticsEngine.getSalesPerformance fs dr)
  /\ read_only (AnalyticsEngine.getInventoryInsights fs)
  /\ read_only (AnalyticsEngine.predictSalesTrends fs dr)
  /\ read_only (AnalyticsEngine.analyzeCustomerBehavior fs dr)
  /\ read_only (AnalyticsEngine.getRevenueForecast fs dr)
  /\ read_only (AnalyticsEngine.getOperationalMetrics fs dr)
  /\ read_only (AnalyticsEngine.getFinancialSummary fs dr).
Proof.
  repeat split; repeat (constructor; intros).
Qed.

Lemma checkInventoryLevels_read_only (p : Parameters) :
  read_only (InventoryService.checkInventoryLevels p).
Proof. repeat (constructor; intros). Qed.

(** X9: none of the ten modelled operations writes: routed through the
    tool handler, whatever the arguments and the store's answers, they
    issue no [db.run] statement and leave the store state as it was. *)
Theorem callTool_modelled_operations_only_read
        (Other : Type) (other_handler : Operation -> Args -> DB Other)
        (st : Store) (s : state st) (name : string) (args : Args) :
  modelled (operation args) = true ->
  let o := exec st (Server.callTool other_handler (mkRequest name (Some args))) s in
  final o = s /\ no_write (issued o).
Proof.
  intros Hop o. apply read_only_exec. unfold Server.callTool.
  apply read_only_catch.
  destruct (SecurityManager.validateRequest (mkRequest name (Some args)));
    [constructor |].
  cbn [arguments]. apply read_only_bind; [| intros r; constructor].
  unfold Server.routeRequest.
  destruct (analytics_handlers_read_only
              (match filters args with Some f => f | None => Server.empty_filters end)
              (dateRange args))
    as (H1 & H2 & H3 & H4 & H5 & H6 & H7 & H8).
  destruct (operation args); try discriminate Hop;
    (apply read_only_bind; [| intros r; constructor]);
    try assumption.
  - apply checkInventoryLevels_read_only.
  - apply createSalesOpportunity_read_only.
Qed.

(** *** Inventory updates *)

Lemma exec_update_each (st : Store) (updates results : list InventoryService.InventoryUpdate)
      (s : state st) :
  exec st (InventoryService.update_each updates results) s
  = mkOutcome (inr (results ++ updates)%list)
              (fold_left (apply st) (map InventoryService.update_of updates) s)
              (map IssuedRun (map InventoryService.update_of updates)).
Proof.
  revert results s. induction updates as [| u rest IH]; intros results s.
  - cbn. rewrite app_nil_r. reflexivity.
  - cbn [InventoryService.update_each]. cbn [Db.bind Db.run exec].
    rewrite IH. cbn. rewrite <- app_assoc. reflexivity.
Qed.

(** X10: [updateInventoryLevels] issues one UPDATE per element of its
    input, in input order and nothing else; it reads nothing back, so
    whatever the store holds it reports every element as updated: the count
    is the length of the input and the results echo the input.  An empty
    input issues nothing. *)
Theorem updateInventoryLevels_one_statement_each
        (st : Store) (s : state st)
        (updates : list InventoryService.InventoryUpdate) :
  exec st (InventoryService.updateInventoryLevels updates) s
  = mkOutcome (inr (List.length updates, updates))
              (fold_left (apply st) (map InventoryService.update_of updates) s)
              (map IssuedRun (map InventoryService.update_of updates)).
Proof.
  unfold InventoryService.updateInventoryLevels.
  rewrite exec_bind, exec_update_each. cbn. rewrite app_nil_r. reflexivity.
Qed.

(** *** Report assembly *)

(** X11: the implementation plan is a partition of its input: read in the
    order immediate, short-term, long-term, the recommendations of the
    three tiers are the input list, each entry once and in place (also when
    the input has duplicates); the tiers hold at most 2, at most 2 and all
    remaining entries. *)
Theorem generateImplementationPlan_partitions (recs : list string) :
  let plan := ReportGenerator.generateImplementationPlan recs in
  map ReportGenerator.recommendation
      (ReportGenerator.immediate plan ++ ReportGenerator.shortTerm plan
       ++ ReportGenerator.longTerm plan)%list
  = recs
  /\ List.length (ReportGenerator.immediate plan) = Nat.min 2 (List.length recs)
  /\ List.length (ReportGenerator.shortTerm plan)
     = Nat.min 2 (List.length recs - 2)
  /\ List.length (ReportGenerator.longTerm plan) = (List.length recs - 4)%nat.
Proof.
  intros plan. subst plan. rewrite generateImplementationPlan_tiers.
  cbn [ReportGenerator.immediate ReportGenerator.shortTerm ReportGenerator.longTerm].
  assert (Hid : forall (f : string -> ReportGenerator.PlanItem) l,
             (forall r, ReportGenerator.recommendation (f r) = r) ->
             map ReportGenerator.recommendation (map f l) = l).
  { intros f l Hf. rewrite map_map. induction l as [| x l IH]; simpl;
      [reflexivity | now rewrite Hf, IH]. }
  split.
  - rewrite !map_app, !Hid by reflexivity.
    destruct recs as [| a [| b [| c [| d rest]]]]; reflexivity.
  - rewrite !length_map.
    destruct recs as [| a [| b [| c [| d rest]]]]; cbn; repeat split; lia.
Qed.

(** *** Inventory insights *)

Lemma stock_status_low_iff (q l : option Z) :
  String.eqb (AnalyticsEngine.stock_status q l) "Low Stock" = true
  <-> sql_le q l = true.
Proof.
  unfold AnalyticsEngine.stock_status.
  destruct (sql_le q l); [split; reflexivity |].
  destruct (sql_le q (sql_times2 l)); split; discriminate.
Qed.

(** X12: [get_inventory_insights] reads the inventory rows without any
    filter (its three statements are the same whatever filters are passed);
    its low-stock list holds exactly the rows of the inventory list whose
    quantity and reorder level are both not NULL with quantity <=
    reorder level, in the order of the inventory list. *)
Theorem getInventoryInsights_low_stock_items
        (st : Store) (s : state st) (fs : Filters) :
  let o := exec st (AnalyticsEngine.getInventoryInsights fs) s in
  exists r,
    result o = inr r
    /\ AnalyticsEngine.inventoryStatus (data r)
       = map AnalyticsEngine.with_stock_status (answer st s II_inventoryStatus)
    /\ AnalyticsEngine.lowStockItems (data r)
       = filter (fun item =>
                   sql_le (quantity (AnalyticsEngine.is_row item))
                          (reorder_level (AnalyticsEngine.is_row item)))
                (AnalyticsEngine.inventoryStatus (data r))
    /\ (forall item,
           In item (AnalyticsEngine.lowStockItems (data r))
           <-> In item (AnalyticsEngine.inventoryStatus (data r))
               /\ exists q l,
                   quantity (AnalyticsEngine.is_row item) = Some q
                   /\ reorder_level (AnalyticsEngine.is_row item) = Some l
                   /\ (q <= l)%Z)
    /\ issued o = [ IssuedSelect (sql_text II_inventoryStatus) [];
                    IssuedSelect (sql_text II_categoryBreakdown) [];
                    IssuedSelect (sql_text II_warehouseDistribution) [] ]
    /\ final o = s.
Proof.
  intros o. eexists. split; [reflexivity |]. cbn [data AnalyticsEngine.inventoryStatus
    AnalyticsEngine.lowStockItems].
  split; [reflexivity |].
  assert (Hfilter :
            forall rows,
              filter (fun item => String.eqb (AnalyticsEngine.is_stock_status item)
                                             "Low Stock")
                     (map AnalyticsEngine.with_stock_status rows)
              = filter (fun item =>
                          sql_le (quantity (AnalyticsEngine.is_row item))
                                 (reorder_level (AnalyticsEngine.is_row item)))
                       (map AnalyticsEngine.with_stock_status rows)).
  { intros rows. induction rows as [| row rows IH]; [reflexivity |].
    cbn [map filter AnalyticsEngine.with_stock_status
         AnalyticsEngine.is_stock_status AnalyticsEngine.is_row].
    rewrite IH.
    destruct (sql_le (quantity row) (reorder_level row)) eqn:Hle.
    - apply stock_status_low_iff in Hle. rewrite Hle. reflexivity.
    - destruct (String.eqb (AnalyticsEngine.stock_status (quantity row)
                                                        (reorder_level row))
                           "Low Stock") eqn:Heq; [| reflexivity].
      apply stock_status_low_iff in Heq. congruence. }
  split; [apply Hfilter |].
  split; [| split; reflexivity].
  intros item. rewrite Hfilter, filter_In.
  split; intros [Hin Hlow]; (split; [exact Hin |]).
  - unfold sql_le in Hlow.
    destruct (quantity (AnalyticsEngine.is_row item)) as [q |]; [| discriminate].
    destruct (reorder_level (AnalyticsEngine.is_row item)) as [l |]; [| discriminate].
    exists q, l. repeat split. now apply Z.leb_le.
  - destruct Hlow as (q & l & Hq & Hl & Hle). rewrite Hq, Hl. cbn.
    now apply Z.leb_le.
Qed.

(** X13: the warehouse counters and the stock label agree only in part.
    A row is counted under-stocked (and selected by [lowStockOnly]) exactly
    when its label is Low Stock; with a reorder level >= 0 it is counted
    well-stocked exactly when its label is High Stock, and an out-of-stock
    row is under-stocked.  A row whose quantity is NULL is labelled
    High Stock but counted by none of the counters, and with a negative
    reorder level one row can be counted under-stocked and well-stocked at
    once. *)
Theorem stock_counters_and_label :
  (forall q l : option Z,
      InventoryService.under_stocked q l = true
      <-> InventoryService.stock_status q l = "Low Stock")
  /\ (forall q l : Z,
         (0 <= l)%Z ->
         (InventoryService.well_stocked (Some q) (Some l) = true
          <-> InventoryService.stock_status (Some q) (Some l) = "High Stock"))
  /\ (forall q l : Z,
         (0 <= l)%Z ->
         InventoryService.out_of_stock (Some q) = true ->
         InventoryService.under_stocked (Some q) (Some l) = true)
  /\ (forall l : option Z,
         InventoryService.stock_status None l = "High Stock"
         /\ InventoryService.well_stocked None l = false
         /\ InventoryService.under_stocked None l = false
         /\ InventoryService.out_of_stock None = false)
  /\ (InventoryService.under_stocked (Some (-7)%Z) (Some (-5)%Z) = true
      /\ InventoryService.well_stocked (Some (-7)%Z) (Some (-5)%Z) = true).
Proof.
  split; [| split; [| split; [| split]]].
  - intros q l. unfold InventoryService.under_stocked, InventoryService.stock_status.
    destruct (sql_le q l); [split; reflexivity |].
    destruct (sql_le q (sql_times2 l)); split; discriminate.
  - intros q l Hl.
    unfold InventoryService.well_stocked, InventoryService.stock_status,
      sql_gt, sql_le, sql_times2.
    destruct (Z.leb_spec q l) as [H1 | H1];
      destruct (Z.leb_spec q (l * 2)) as [H2 | H2];
      destruct (Z.ltb_spec (l * 2) q) as [H3 | H3]; split; intros H0;
      try discriminate; try reflexivity; lia.
  - intros q l Hl Hout. unfold InventoryService.out_of_stock in Hout.
    apply Z.eqb_eq in Hout. subst q. cbn. now apply Z.leb_le.
  - intros l. destruct l; repeat split.
  - split; reflexivity.
Qed.

(** *** Placeholders and bound parameters *)

(** X17: in [check_inventory_levels] every value travels as a bound
    parameter: for every parameter bag both statements carry the same
    parameter list, and each command text holds exactly as many
    placeholders as there are parameters; nothing is written. *)
Theorem checkInventoryLevels_placeholders_match
        (st : Store) (s : state st) (p : Parameters) :
  let o := exec st (InventoryService.checkInventoryLevels p) s in
  exists text1 text2 params,
    issued o = [IssuedSelect text1 params; IssuedSelect text2 params]
    /\ count_char placeholder text1 = List.length params
    /\ count_char placeholder text2 = List.length params
    /\ (forall v, In v params -> p_category p = Some v \/ p_warehouse p = Some v)
    /\ final o = s.
Proof.
  intros o. subst o.
  unfold InventoryService.checkInventoryLevels, InventoryService.bound_condition.
  destruct (p_category p) as [[| c cs] |];
    destruct (p_warehouse p) as [[| w ws] |];
    destruct (lowStockOnly p) as [[|] |];
    (destruct (sortBy p) as [sb |];
     [destruct (String.eqb sb "quantity"); [| destruct (String.eqb sb "name")] |]);
    do 3 eexists; cbn;
      (split; [reflexivity |]); (split; [reflexivity |]); (split; [reflexivity |]);
      (split; [| reflexivity]); intros v Hin; cbn in Hin;
        repeat (destruct Hin as [Hin | Hin]; [subst v; auto |]); contradiction.
Qed.

End MoreProperties.






(** X19: in [search_customers] every search value travels as a bound
    parameter: for every parameter bag the command text holds exactly as
    many placeholders as there are parameters, and the last parameter is
    the limit, 50 when none is given. *)
Theorem searchCustomers_placeholders_match (p : CustomerService.SearchParams) :
  let statement := CustomerService.searchCustomers_statement p in
  count_char placeholder (st_text statement) = List.length (st_params statement)
  /\ last (st_params statement) JNull
     = JNum (match CustomerService.sp_limit p with
             | Some n => n
             | None => 50%float
             end).
Proof.
  intros statement. subst statement.
  unfold CustomerService.searchCustomers_statement, CustomerService.search_condition.
  split.
  - destruct (CustomerService.sp_query p) as [[| c1 s1] |];
      destruct (CustomerService.sp_customerTier p) as [[| c2 s2] |];
      destruct (CustomerService.sp_industry p) as [[| c3 s3] |];
      destruct (CustomerService.sp_location p) as [[| c4 s4] |];
      destruct (CustomerService.sp_status p) as [[| c5 s5] |];
      reflexivity.
  - cbn [st_params]. rewrite last_last. reflexivity.
Qed.

(** *** Worked instances of the tool handler properties *)

(** X7, instance: a call of the tool [reports]. *)
Lemma callTool_rejects_before_store_witness :
  exists text,
    exec tables_store
         (@Server.callTool sample_builtins sample_clock unit (fun _ _ => Ret tt)
            (mkRequest "reports"
               (Some (mkArgs get_customer_analytics None None None None))))
         sample_tables
    = mkOutcome (inr (Server.IsError unit text)) sample_tables []
    /\ (text = "Error: Invalid tool name"
        \/ text = "Error: Missing required parameters").
Proof.
  refine (@callTool_rejects_before_store
            sample_builtins sample_clock unit (fun _ _ => Ret tt)
            tables_store sample_tables
            (mkRequest "reports"
               (Some (mkArgs get_customer_analytics None None None None)))
            (or_introl _)).
  cbn. discriminate.
Defined.

(** X8, instance: customer CUST404 is not in the customer table. *)
Lemma callTool_unknown_customer_witness :
  exec tables_store
       (@Server.callTool sample_builtins sample_clock unit (fun _ _ => Ret tt)
          (mkRequest "business_intelligence"
             (Some (mkArgs create_sales_opportunity
                      (Some (opportunity_parameters "CUST404" "PROD001" 5 25000))
                      None None None))))
       sample_tables
  = mkOutcome
      (inr (Server.IsError unit ("Error: Customer with ID " ++ "CUST404" ++ " not found")))
      sample_tables [IssuedSelect "SELECT * FROM customers WHERE id = ?" ["CUST404"]].
Proof.
  exact (@callTool_unknown_customer
           sample_builtins sample_clock unit (fun _ _ => Ret tt)
           tables_store sample_tables
           (opportunity_parameters "CUST404" "PROD001" 5 25000) "CUST404"
           None None None eq_refl eq_refl eq_refl).
Defined.

(** X9, instance: [predict_sales_trends] on the store of the examples. *)
Lemma callTool_modelled_operations_only_read_witness :
  let o := exec tables_store
                (@Server.callTool sample_builtins sample_clock unit
                   (fun _ _ => Ret tt)
                   (mkRequest "business_intelligence"
                      (Some (mkArgs predict_sales_trends None None None None))))
                sample_tables in
  final o = sample_tables /\ no_write (issued o).
Proof.
  exact (@callTool_modelled_operations_only_read
           sample_builtins sample_clock unit (fun _ _ => Ret tt)
           tables_store sample_tables "business_intelligence"
           (mkArgs predict_sales_trends None None None None) eq_refl).
Defined.

(** *** Churn risk and sales pipeline *)

Module DaysSinceLastOrder.
Import QArith.

Lemma gt_iff (d : Q) (n : Z) :
  sql_real_gt (Some d) n = true <-> inject_Z n < d.
Proof.
  unfold sql_real_gt. rewrite negb_true_iff.
  destruct (Qle_bool d (inject_Z n)) eqn:Hle.
  - apply Qle_bool_iff in Hle. split; [discriminate |].
    intros Hlt. exfalso. exact (Qlt_not_le _ _ Hlt Hle).
  - split; [intros _ | reflexivity].
    apply Qnot_le_lt. intros Hle'. apply Qle_bool_iff in Hle'. congruence.
Qed.

Lemma le_iff (d : Q) (n : Z) :
  sql_real_le (Some d) n = true <-> d <= inject_Z n.
Proof. unfold sql_real_le. apply Qle_bool_iff. Qed.

Lemma gt_false_iff (d : Q) (n : Z) :
  sql_real_gt (Some d) n = false <-> d <= inject_Z n.
Proof.
  unfold sql_real_gt. rewrite negb_false_iff. apply Qle_bool_iff.
Qed.

Lemma le_false_iff (d : Q) (n : Z) :
  sql_real_le (Some d) n = false <-> inject_Z n < d.
Proof.
  rewrite <- gt_iff. unfold sql_real_gt, sql_real_le.
  destruct (Qle_bool d (inject_Z n)); split; intros; try discriminate; reflexivity.
Qed.

Lemma step_30_60 : inject_Z 30 < inject_Z 60.
Proof. reflexivity. Qed.

Lemma step_60_90 : inject_Z 60 < inject_Z 90.
Proof. reflexivity. Qed.

Lemma at_risk_iff (d : Q) :
  CustomerService.at_risk (Some d) = true <-> inject_Z 60 < d.
Proof.
  unfold CustomerService.at_risk, CustomerService.churn_risk.
  destruct (sql_real_gt (Some d) 90) eqn:G90.
  - apply gt_iff in G90. cbn. split; [intros _ | reflexivity].
    exact (Qlt_trans _ _ _ step_60_90 G90).
  - destruct (sql_real_gt (Some d) 60) eqn:G60.
    + apply gt_iff in G60. cbn. split; [intros _; exact G60 | reflexivity].
    + apply gt_false_iff in G60.
      destruct (sql_real_gt (Some d) 30); cbn; (split; [discriminate |]);
        intros Hlt; exfalso; exact (Qlt_not_le _ _ Hlt G60).
Qed.

Lemma in_pipeline_iff (d : Q) :
  SalesService.in_pipeline (Some d) = true <-> d <= inject_Z 60.
Proof.
  unfold SalesService.in_pipeline, SalesService.lead_status.
  destruct (sql_real_le (Some d) 30) eqn:L30.
  - apply le_iff in L30. cbn. split; [intros _ | reflexivity].
    apply Qlt_le_weak. exact (Qle_lt_trans _ _ _ L30 step_30_60).
  - destruct (sql_real_le (Some d) 60) eqn:L60.
    + apply le_iff in L60. cbn. split; [intros _; exact L60 | reflexivity].
    + apply le_false_iff in L60.
      destruct (sql_real_le (Some d) 90); cbn; (split; [discriminate |]);
        intros Hle; exfalso; exact (Qlt_not_le _ _ L60 Hle).
Qed.

Lemma low_risk_iff (d : Q) :
  CustomerService.churn_risk (Some d) = "Low Risk"
  <-> inject_Z 30 < d /\ d <= inject_Z 60.
Proof.
  unfold CustomerService.churn_risk.
  destruct (sql_real_gt (Some d) 90) eqn:G90.
  - apply gt_iff in G90. split; [discriminate |]. intros [_ Hle]. exfalso.
    exact (Qlt_not_le _ _ (Qlt_trans _ _ _ step_60_90 G90) Hle).
  - destruct (sql_real_gt (Some d) 60) eqn:G60.
    + apply gt_iff in G60. split; [discriminate |]. intros [_ Hle]. exfalso.
      exact (Qlt_not_le _ _ G60 Hle).
    + apply gt_false_iff in G60.
      destruct (sql_real_gt (Some d) 30) eqn:G30.
      * apply gt_iff in G30. split; [intros _; split; assumption | reflexivity].
      * apply gt_false_iff in G30. split; [discriminate |]. intros [Hlt _].
        exfalso. exact (Qlt_not_le _ _ Hlt G30).
Qed.

(** X14: the churn-risk report and the sales pipeline split the customers
    by the same threshold.  A customer with orders is in the churn-risk
    report exactly when the last order is more than 60 days back, and in
    the pipeline exactly when it is at most 60 days back, so in exactly one
    of the two; a Low Risk customer (more than 30, at most 60 days) is not
    in the report.  A customer without any order (NULL) is in neither list,
    labelled Active by the one and Inactive by the other. *)
Theorem churn_report_and_pipeline_split_at_60_days :
  (forall d : Q,
      (CustomerService.at_risk (Some d) = true <-> inject_Z 60 < d)
      /\ (SalesService.in_pipeline (Some d) = true <-> d <= inject_Z 60)
      /\ CustomerService.at_risk (Some d) = negb (SalesService.in_pipeline (Some d))
      /\ (CustomerService.churn_risk (Some d) = "Low Risk"
          <-> inject_Z 30 < d /\ d <= inject_Z 60))
  /\ CustomerService.at_risk None = false
  /\ SalesService.in_pipeline None = false
  /\ CustomerService.churn_risk None = "Active"
  /\ SalesService.lead_status None = "Inactive"
  /\ CustomerService.churn_risk (Some (inject_Z 95)) = "High Risk"
  /\ CustomerService.churn_risk (Some (inject_Z 65)) = "Medium Risk"
  /\ CustomerService.churn_risk (Some (inject_Z 31)) = "Low Risk"
  /\ CustomerService.churn_risk (Some (inject_Z 10)) = "Active".
Proof.
  split; [| repeat split].
  intros d.
  split; [apply at_risk_iff |]. split; [apply in_pipeline_iff |].
  split; [| apply low_risk_iff].
  destruct (CustomerService.at_risk (Some d)) eqn:Hrisk;
    destruct (SalesService.in_pipeline (Some d)) eqn:Hpipe; try reflexivity.
  - apply at_risk_iff in Hrisk. apply in_pipeline_iff in Hpipe.
    exfalso. exact (Qlt_not_le _ _ Hrisk Hpipe).
  - exfalso. destruct (Qlt_le_dec (inject_Z 60) d) as [Hlt | Hle].
    + apply at_risk_iff in Hlt. congruence.
    + apply in_pipeline_iff in Hle. congruence.
Qed.

End DaysSinceLastOrder.

(** *** Input sanitising *)

Lemma Json_induction (P : SecurityManager.Json -> Prop) :
  P SecurityManager.JsonNull ->
  (forall b, P (SecurityManager.JsonBool b)) ->
  (forall n, P (SecurityManager.JsonNumber n)) ->
  (forall s, P (SecurityManager.JsonString s)) ->
  (forall items, Forall P items -> P (SecurityManager.JsonArray items)) ->
  (forall entries, Forall (fun entry => P (snd entry)) entries ->
                   P (SecurityManager.JsonObject entries)) ->
  forall v, P v.
Proof.
  intros Hnull Hbool Hnum Hstr Harr Hobj.
  fix IH 1. intros [| b | n | s | items | entries].
  - exact Hnull.
  - apply Hbool.
  - apply Hnum.
  - apply Hstr.
  - apply Harr. induction items as [| x items IHitems]; constructor;
      [apply IH | exact IHitems].
  - apply Hobj. induction entries as [| [k v] entries IHentries]; constructor;
      [apply IH | exact IHentries].
Qed.

Lemma strip_clean (s : string) :
  SecurityManager.clean_string (SecurityManager.strip s) = true.
Proof.
  induction s as [| c s IH]; simpl; [reflexivity |].
  destruct (SecurityManager.removed c) eqn:Hc; simpl; [exact IH |].
  rewrite Hc, IH. reflexivity.
Qed.

Lemma strip_fixed (s : string) :
  SecurityManager.clean_string s = true -> SecurityManager.strip s = s.
Proof.
  induction s as [| c s IH]; simpl; [reflexivity |].
  destruct (SecurityManager.removed c); simpl; [discriminate |].
  intros Hs. rewrite IH by exact Hs. reflexivity.
Qed.

Lemma forallb_filter_true {A} (f p : A -> bool) (l : list A) :
  forallb f l = true -> forallb f (filter p l) = true.
Proof.
  induction l as [| x l IH]; simpl; [reflexivity |].
  intros H. apply andb_true_iff in H. destruct H as [Hx Hl].
  destruct (p x); simpl; [rewrite Hx |]; now apply IH.
Qed.

Lemma clean_index_entries (items : list SecurityManager.Json) (index : nat) :
  forallb (fun entry => SecurityManager.clean (snd entry))
          (SecurityManager.index_entries index items)
  = forallb SecurityManager.clean items.
Proof.
  revert index. induction items as [| x items IH]; intros index; simpl;
    [reflexivity | now rewrite IH].
Qed.

Lemma sanitizeInput_clean (v : SecurityManager.Json) :
  SecurityManager.clean (SecurityManager.sanitizeInput v) = true.
Proof.
  induction v as [| b | n | s | items IH | entries IH] using Json_induction;
    try reflexivity.
  - apply strip_clean.
  - cbn [SecurityManager.sanitizeInput SecurityManager.clean].
    apply forallb_filter_true. rewrite clean_index_entries.
    induction IH as [| x items Hx _ IHrest]; simpl; [reflexivity |].
    now rewrite Hx.
  - cbn [SecurityManager.sanitizeInput SecurityManager.clean].
    apply forallb_filter_true.
    induction IH as [| [k x] entries Hx _ IHrest]; simpl; [reflexivity |].
    simpl in Hx. now rewrite Hx.
Qed.

Lemma map_fixed_entries (entries : list (string * SecurityManager.Json)) :
  Forall (fun entry => SecurityManager.sanitizeInput (snd entry) = snd entry) entries ->
  map (fun entry => (fst entry, SecurityManager.sanitizeInput (snd entry))) entries
  = entries.
Proof.
  intros H. induction H as [| [k x] entries Hx _ IH]; simpl; [reflexivity |].
  simpl in Hx. now rewrite Hx, IH.
Qed.

Lemma own_entries_fixed (entries : list (string * SecurityManager.Json)) :
  Forall (fun entry => SecurityManager.sanitizeInput (snd entry) = snd entry) entries ->
  SecurityManager.sanitizeInput
    (SecurityManager.JsonObject (SecurityManager.own_entries entries))
  = SecurityManager.JsonObject (SecurityManager.own_entries entries).
Proof.
  intros H. cbn [SecurityManager.sanitizeInput]. f_equal.
  rewrite map_fixed_entries.
  - unfold SecurityManager.own_entries.
    induction entries as [| e entries IH]; simpl; [reflexivity |].
    inversion H; subst.
    destruct (negb (fst e =? "__proto__")%string) eqn:He; simpl.
    + rewrite He. f_equal. now apply IH.
    + now apply IH.
  - unfold SecurityManager.own_entries.
    induction H as [| e entries He _ IH]; simpl; [constructor |].
    destruct (negb (fst e =? "__proto__")%string); [constructor |]; assumption.
Qed.

Lemma sanitizeInput_idempotent (v : SecurityManager.Json) :
  SecurityManager.sanitizeInput (SecurityManager.sanitizeInput v)
  = SecurityManager.sanitizeInput v.
Proof.
  induction v as [| b | n | s | items IH | entries IH] using Json_induction;
    try reflexivity.
  - cbn [SecurityManager.sanitizeInput]. f_equal.
    apply strip_fixed, strip_clean.
  - change (SecurityManager.sanitizeInput (SecurityManager.JsonArray items))
      with (SecurityManager.JsonObject
              (SecurityManager.own_entries
                 (SecurityManager.index_entries
                    0 (map SecurityManager.sanitizeInput items)))).
    apply own_entries_fixed.
    generalize 0%nat. induction IH as [| x items Hx _ IHrest]; intros index; simpl;
      constructor; [exact Hx | apply IHrest].
  - change (SecurityManager.sanitizeInput (SecurityManager.JsonObject entries))
      with (SecurityManager.JsonObject
              (SecurityManager.own_entries
                 (map (fun entry => (fst entry,
                                     SecurityManager.sanitizeInput (snd entry)))
                      entries))).
    apply own_entries_fixed.
    induction IH as [| [k x] entries Hx _ IHrest]; simpl; constructor;
      [exact Hx | exact IHrest].
Qed.

Lemma string_of_Z_not_proto (z : Z) :
  String.eqb (string_of_Z z) "__proto__" = false.
Proof.
  apply String.eqb_neq. unfold string_of_Z, NilZero.string_of_int.
  destruct (Z.to_int z) as [d | d]; unfold NilZero.string_of_uint;
    destruct d; cbn; discriminate.
Qed.

Lemma own_index_entries (items : list SecurityManager.Json) (index : nat) :
  SecurityManager.own_entries (SecurityManager.index_entries index items)
  = SecurityManager.index_entries index items.
Proof.
  unfold SecurityManager.own_entries. revert index.
  induction items as [| x items IH]; intros index; [reflexivity |].
  cbn [SecurityManager.index_entries filter fst].
  rewrite string_of_Z_not_proto. cbn [negb]. now rewrite IH.
Qed.

Lemma length_index_entries (items : list SecurityManager.Json) (index : nat) :
  List.length (SecurityManager.index_entries index items) = List.length items.
Proof.
  revert index. induction items as [| x items IH]; intros index; simpl;
    [reflexivity | now rewrite IH].
Qed.

(** X15: [sanitizeInput] leaves no single quote, double quote, backslash
    or semicolon in any string value of its result, at any depth; applying
    it twice gives the same as applying it once; a string without those
    characters, a number, a boolean and null come back unchanged; an array
    comes back as an object (keyed by index), not as an array. *)
Theorem sanitizeInput_cleans_and_is_idempotent :
  (forall v, SecurityManager.clean (SecurityManager.sanitizeInput v) = true)
  /\ (forall v, SecurityManager.sanitizeInput (SecurityManager.sanitizeInput v)
                = SecurityManager.sanitizeInput v)
  /\ (forall s, SecurityManager.clean_string s = true ->
                SecurityManager.sanitizeInput (SecurityManager.JsonString s)
                = SecurityManager.JsonString s)
  /\ (forall n, SecurityManager.sanitizeInput (SecurityManager.JsonNumber n)
                = SecurityManager.JsonNumber n)
  /\ (forall b, SecurityManager.sanitizeInput (SecurityManager.JsonBool b)
                = SecurityManager.JsonBool b)
  /\ SecurityManager.sanitizeInput SecurityManager.JsonNull = SecurityManager.JsonNull
  /\ (forall items, exists entries,
         SecurityManager.sanitizeInput (SecurityManager.JsonArray items)
         = SecurityManager.JsonObject entries
         /\ List.length entries = List.length items).
Proof.
  split; [exact sanitizeInput_clean |].
  split; [exact sanitizeInput_idempotent |].
  split; [intros s Hs; cbn; now rewrite strip_fixed |].
  split; [reflexivity |]. split; [reflexivity |]. split; [reflexivity |].
  intros items.
  exists (SecurityManager.own_entries
            (SecurityManager.index_entries
               0 (map SecurityManager.sanitizeInput items))).
  split; [reflexivity |].
  rewrite own_index_entries, length_index_entries. apply length_map.
Qed.

(** *** Authentication *)

(** X16: [authenticateRequest] uses the metadata token whenever it is
    truthy and the argument token only otherwise, so a metadata token that
    does not verify is not rescued by a good argument token; without a
    truthy token it fails with the missing-token error; and whenever it
    succeeds, the principal is what the verification of a string token of
    the request returned. *)
Theorem authenticateRequest_prefers_meta_token
        (Principal : Type) (jwt_verify : string -> option Principal)
        (tokenFromMeta tokenFromArgs : option jsval) :
  (SecurityManager.truthy tokenFromMeta = true ->
   SecurityManager.authenticateRequest jwt_verify tokenFromMeta tokenFromArgs
   = SecurityManager.authenticateRequest jwt_verify tokenFromMeta None)
  /\ (SecurityManager.truthy tokenFromMeta = false ->
      SecurityManager.authenticateRequest jwt_verify tokenFromMeta tokenFromArgs
      = SecurityManager.authenticateRequest jwt_verify None tokenFromArgs)
  /\ (forall s, truthy_string s = true ->
                SecurityManager.authenticateRequest
                  jwt_verify (Some (JStr s)) tokenFromArgs
                = SecurityManager.verifyToken jwt_verify s)
  /\ (SecurityManager.truthy tokenFromMeta = false ->
      SecurityManager.truthy tokenFromArgs = false ->
      SecurityManager.authenticateRequest jwt_verify tokenFromMeta tokenFromArgs
      = inl SecurityManager.MissingToken)
  /\ (forall principal,
         SecurityManager.authenticateRequest jwt_verify tokenFromMeta tokenFromArgs
         = inr principal ->
         exists s, jwt_verify s = Some principal
                   /\ (tokenFromMeta = Some (JStr s)
                       \/ (SecurityManager.truthy tokenFromMeta = false
                           /\ tokenFromArgs = Some (JStr s)))).
Proof.
  unfold SecurityManager.authenticateRequest.
  split; [intros ->; reflexivity |].
  split; [intros ->; reflexivity |].
  split; [intros s Hs; cbn [SecurityManager.truthy]; rewrite Hs; cbn;
          rewrite Hs; reflexivity |].
  split.
  - intros ->. destruct tokenFromArgs as [[| b | n | s] |]; cbn; try reflexivity.
    intros ->. reflexivity.
  - intros principal.
    destruct (SecurityManager.truthy tokenFromMeta) eqn:Hmeta.
    + destruct tokenFromMeta as [[| b | n | s] |]; try discriminate.
      destruct (truthy_string s); [| discriminate].
      unfold SecurityManager.verifyToken.
      destruct (jwt_verify s) as [p |] eqn:Hv; [| discriminate].
      intros H. inversion H; subst. exists s. split; [exact Hv | now left].
    + destruct tokenFromArgs as [[| b | n | s] |]; try discriminate.
      destruct (truthy_string s); [| discriminate].
      unfold SecurityManager.verifyToken.
      destruct (jwt_verify s) as [p |] eqn:Hv; [| discriminate].
      intros H. inversion H; subst. exists s. split; [exact Hv | right; now split].
Qed.

(** *** Export paging *)

(** X20: [estimatePageCount] gives an array of [n] items the least number
    of 50-item pages that holds them all: the pages cover the items, the
    last page is not empty, an empty array gets 0 pages; anything that is
    not an array gets 1 page. *)
Theorem estimatePageCount_covers (n : nat) :
  let pages := ReportGenerator.estimatePageCount (Some n) in
  (n <= 50 * pages)%nat
  /\ (50 * pages < n + 50)%nat
  /\ ReportGenerator.estimatePageCount (Some 0%nat) = 0%nat
  /\ ReportGenerator.estimatePageCount None = 1%nat.
Proof.
  intros pages. subst pages. unfold ReportGenerator.estimatePageCount.
  pose proof (Nat.div_mod_eq n 50) as Hdm.
  pose proof (Nat.mod_upper_bound n 50 ltac:(lia)) as Hub.
  destruct (Nat.eqb_spec (n mod 50) 0) as [Hz | Hnz]; repeat split; lia.
Qed.
